(** * simple-mitm-proxy: the logging middleware of [src/index.ts]

    A shallow embedding of the request/response logging pipeline:
    [handleResponse], [createLogFilename], the [res.write] / [res.end]
    overrides installed by the middleware, the proxy's [onError] hook, the
    start-up statements and the order of the middleware chain.

    JavaScript values are modelled by [JSValue]; strings are Rocq strings
    read as the UTF-8 encoding of the JavaScript string; a [Buffer] is a
    list of bytes.  Effects (console, file system, clock, uuid source, the
    underlying response stream) are threaded through the state-and-exception
    monad [JS].  What Node and its libraries provide (zlib, V8's JSON parser,
    [Date], uuid, chalk) is gathered in the record [Runtime]. *)

From Stdlib Require Import ZArith Ascii String List Lia.
From stdpp Require Import base tactics option list strings gmap pretty.

#[local] Set Warnings "-register-all".

(** ** Values *)

(** A Node [Buffer]. *)
Definition Buffer := list Byte.byte.

(** [Buffer.from(s)] for a string, default encoding utf8. *)
Definition Buffer_from (s : string) : Buffer := list_byte_of_string s.

(** [Buffer.concat(chunks)]. *)
Definition Buffer_concat (bs : list Buffer) : Buffer := concat bs.

(** The values [JSON.parse] produces and [JSON.stringify] consumes.  An object
    keeps its properties in insertion order.  Numbers are the integral ones:
    every number the proxy itself creates (status codes, the JSON-RPC error
    code, millisecond differences) is an integer. [undefined] is the [None] of
    an [option JSValue]. *)
Inductive JSValue : Type :=
| JNull
| JBool (b : bool)
| JNumber (n : Z)
| JString (s : string)
| JArray (xs : list JSValue)
| JObject (props : list (string * JSValue)).

(** ECMAScript [ToBoolean]. *)
Definition truthy (v : JSValue) : bool :=
  match v with
  | JNull => false
  | JBool b => b
  | JNumber n => negb (n =? 0)%Z
  | JString s => negb (String.eqb s "")
  | JArray _ | JObject _ => true
  end.

Definition truthy_opt (v : option JSValue) : bool :=
  match v with Some x => truthy x | None => false end.

(** [a || b] where [a] may be [undefined]. *)
Definition js_or (a : option JSValue) (b : JSValue) : JSValue :=
  match a with
  | Some x => if truthy x then x else b
  | None => b
  end.

(** Own-property read [o[k]] on an object (first binding; [JSON.parse] never
    yields two). *)
Fixpoint assoc {V : Type} (k : string) (l : list (string * V)) : option V :=
  match l with
  | [] => None
  | (k', v) :: l' => if String.eqb k k' then Some v else assoc k l'
  end.

(** [v.k] for the keys the program reads ([id], [method]): arrays and
    primitives have no such property. *)
Definition get_prop (v : JSValue) (k : string) : option JSValue :=
  match v with
  | JObject props => assoc k props
  | _ => None
  end.

(** [v?.k] on a value that may be [undefined] or [null]. *)
Definition opt_prop (v : option JSValue) (k : string) : option JSValue :=
  match v with
  | Some JNull | None => None
  | Some x => get_prop x k
  end.

(** ** Strings *)

Definition dquote : string := String "034" "".
Definition newline : string := String "010" "".

Fixpoint join (sep : string) (l : list string) : string :=
  match l with
  | [] => ""
  | [x] => x
  | x :: l' => x +:+ sep +:+ join sep l'
  end.

Definition hex_digit (n : nat) : ascii :=
  match String.get n "0123456789abcdef" with Some c => c | None => "0"%char end.

(** One character of ECMAScript's [QuoteJSONString]. *)
Definition quote_char (c : ascii) : string :=
  let n := nat_of_ascii c in
  if Nat.eqb n 8 then "\b"
  else if Nat.eqb n 9 then "\t"
  else if Nat.eqb n 10 then "\n"
  else if Nat.eqb n 12 then "\f"
  else if Nat.eqb n 13 then "\r"
  else if Nat.eqb n 34 then String "\" dquote
  else if Nat.eqb n 92 then "\\"
  else if Nat.ltb n 32 then
    "\u00" +:+ String (hex_digit (n / 16)) (String (hex_digit (n mod 16)) "")
  else String c "".

Fixpoint quote_body (s : string) : string :=
  match s with
  | EmptyString => ""
  | String c s' => quote_char c +:+ quote_body s'
  end.

Definition quote (s : string) : string := dquote +:+ quote_body s +:+ dquote.

(** [JSON.stringify(v, null, gap)]: ECMAScript's [SerializeJSONProperty] with
    the current indentation [indent].  With an empty [gap] the output is the
    compact form. *)
Fixpoint serialize (gap indent : string) (v : JSValue) : string :=
  let inner := indent +:+ gap in
  let wrap (open close : string) (parts : list string) : string :=
    match parts with
    | [] => open +:+ close
    | _ =>
        if String.eqb gap "" then open +:+ join "," parts +:+ close
        else open +:+ newline +:+ inner
             +:+ join ("," +:+ newline +:+ inner) parts
             +:+ newline +:+ indent +:+ close
    end in
  match v with
  | JNull => "null"
  | JBool true => "true"
  | JBool false => "false"
  | JNumber n => pretty n
  | JString s => quote s
  | JArray xs => wrap "[" "]" (map (serialize gap inner) xs)
  | JObject props =>
      wrap "{" "}"
        (map (fun kv => match kv with
                        | (k, x) =>
                            quote k +:+ (if String.eqb gap "" then ":" else ": ")
                            +:+ serialize gap inner x
                        end) props)
  end.

(** [JSON.stringify(v)]. *)
Definition JSON_stringify (v : JSValue) : string := serialize "" "" v.

(** [JSON.stringify(v, null, 2)]. *)
Definition JSON_stringify2 (v : JSValue) : string := serialize "  " "" v.

(** [String(v)], the conversion a template literal applies. *)
Fixpoint js_toString (v : JSValue) : string :=
  match v with
  | JNull => "null"
  | JBool true => "true"
  | JBool false => "false"
  | JNumber n => pretty n
  | JString s => s
  | JArray xs =>
      join "," (map (fun x => match x with JNull => "" | _ => js_toString x end) xs)
  | JObject _ => "[object Object]"
  end.

(** ASCII lower-casing.  [String.prototype.toLowerCase] also maps letters
    outside ASCII, none of them to an ASCII letter of [gzip], so the test
    [toLowerCase() === "gzip"] is decided by the ASCII letters alone. *)
Definition lower_char (c : ascii) : ascii :=
  let n := nat_of_ascii c in
  if (Nat.leb 65 n && Nat.leb n 90)%bool then ascii_of_nat (n + 32) else c.

Fixpoint toLowerCase (s : string) : string :=
  match s with
  | EmptyString => EmptyString
  | String c s' => String (lower_char c) (toLowerCase s')
  end.

(** [s.replace(/[:.]/g, "-")]. *)
Fixpoint replace_colon_dot (s : string) : string :=
  match s with
  | EmptyString => EmptyString
  | String c s' =>
      String (if (Ascii.eqb c ":" || Ascii.eqb c ".")%bool then "-"%char else c)
             (replace_colon_dot s')
  end.

(** ** The runtime and the world *)

(** A response header value as [res.getHeaders()] types it:
    [number | string | string[]]. *)
Inductive HeaderValue : Type :=
| HNum (n : Z)
| HStr (s : string)
| HArr (l : list string).

(** A header object, property names in insertion order. *)
Definition Headers := list (string * HeaderValue).

Definition header_json (h : HeaderValue) : JSValue :=
  match h with
  | HNum n => JNumber n
  | HStr s => JString s
  | HArr l => JArray (map JString l)
  end.

Definition headers_json (hs : Headers) : JSValue :=
  JObject (map (fun kv => (fst kv, header_json (snd kv))) hs).

(** What a [throw] carries. *)
Inductive JSError : Type :=
| TypeError (msg : string)
| SyntaxError
| ZlibError
| ENOENT (path : string)
| NetError (code : string).

Inductive Color : Type := blue | green | red | gray | yellow | cyan.

(** The first argument of [res.write] and [res.end]: omitted, a [Buffer] or a
    string (written with the default encoding, utf8). *)
Inductive Chunk : Type :=
| ChunkNone
| ChunkBuf (b : Buffer)
| ChunkStr (s : string).

(** A call that reached the underlying, unpatched [ServerResponse]. *)
Inductive SinkCall : Type :=
| SWrite (c : Chunk)
| SEnd (c : Chunk).

Inductive ConsoleStream : Type := StdOut | StdErr.

(** One [console.log] ([StdOut]) or [console.error] ([StdErr]) call. *)
Record ConsoleEntry : Type := {
  stream : ConsoleStream;
  message : string;
  cause : option JSError;
}.

(** What Node and the imported libraries provide.  [gunzipSync] and
    [JSON_parse] answer [None] where the JavaScript function throws;
    [clock n] is the epoch millisecond the [n]-th evaluated [new Date()]
    reads; [uuidv4 n] is the [n]-th uuid drawn. *)
Record Runtime : Type := {
  gunzipSync : Buffer -> option Buffer;
  toString_utf8 : Buffer -> string;
  JSON_parse : string -> option JSValue;
  toISOString : Z -> string;
  clock : nat -> Z;
  uuidv4 : nat -> string;
  chalk : Color -> string -> string;
  LOG_DIR : string;
}.

(** The underlying response object. *)
Record Response : Type := {
  headersSent : bool;
  statusCode : Z;
  resHeaders : Headers;
  wire : list SinkCall;
}.

(** Everything the code of one request reads or changes: the process's
    console, the log directory, the clock and uuid positions, the response,
    and the middleware's [chunks] array. *)
Record World : Type := {
  console : list ConsoleEntry;
  log_dir_present : bool;
  files : gmap string string;
  dates_read : nat;
  uuids_drawn : nat;
  res : Response;
  chunks : list Buffer;
}.

Definition set_console (f : list ConsoleEntry -> list ConsoleEntry) (w : World) : World :=
  {| console := f (console w); log_dir_present := log_dir_present w;
     files := files w; dates_read := dates_read w; uuids_drawn := uuids_drawn w;
     res := res w; chunks := chunks w |}.

Definition set_files (f : gmap string string -> gmap string string) (w : World) : World :=
  {| console := console w; log_dir_present := log_dir_present w;
     files := f (files w); dates_read := dates_read w; uuids_drawn := uuids_drawn w;
     res := res w; chunks := chunks w |}.

Definition set_dates_read (f : nat -> nat) (w : World) : World :=
  {| console := console w; log_dir_present := log_dir_present w;
     files := files w; dates_read := f (dates_read w); uuids_drawn := uuids_drawn w;
     res := res w; chunks := chunks w |}.

Definition set_uuids_drawn (f : nat -> nat) (w : World) : World :=
  {| console := console w; log_dir_present := log_dir_present w;
     files := files w; dates_read := dates_read w; uuids_drawn := f (uuids_drawn w);
     res := res w; chunks := chunks w |}.

Definition set_res (f : Response -> Response) (w : World) : World :=
  {| console := console w; log_dir_present := log_dir_present w;
     files := files w; dates_read := dates_read w; uuids_drawn := uuids_drawn w;
     res := f (res w); chunks := chunks w |}.

Definition set_chunks (f : list Buffer -> list Buffer) (w : World) : World :=
  {| console := console w; log_dir_present := log_dir_present w;
     files := files w; dates_read := dates_read w; uuids_drawn := uuids_drawn w;
     res := res w; chunks := f (chunks w) |}.

(** ** The monad of JavaScript statements *)

Inductive Completion (A : Type) : Type :=
| Normal (a : A)
| Throw (e : JSError).
Arguments Normal {A} a.
Arguments Throw {A} e.

Definition JS (A : Type) : Type := World -> Completion A * World.

#[global] Instance JS_ret : MRet JS := fun A a w => (Normal a, w).

#[global] Instance JS_bind : MBind JS := fun A B k m w =>
  match m w with
  | (Normal a, w') => k a w'
  | (Throw e, w') => (Throw e, w')
  end.

Definition throw {A : Type} (e : JSError) : JS A := fun w => (Throw e, w).

(** [try { body } catch (e) { handler e }]. *)
Definition try_catch {A : Type} (body : JS A) (handler : JSError -> JS A) : JS A :=
  fun w =>
    match body w with
    | (Normal a, w') => (Normal a, w')
    | (Throw e, w') => handler e w'
    end.

Definition gets {A : Type} (f : World -> A) : JS A := fun w => (Normal (f w), w).
Definition modify (f : World -> World) : JS unit := fun w => (Normal tt, f w).

(** A call that answers [None] where the JavaScript function throws [e]. *)
Definition or_throw {A : Type} (e : JSError) (o : option A) : JS A :=
  match o with
  | Some a => mret a
  | None => throw e
  end.

(** ** The program *)

(** [req] as the middleware and the error hook read it; [body] is what
    [express.json()] left in [req.body]. *)
Record Request : Type := {
  method : string;
  path : string;
  headers : Headers;
  body : option JSValue;
}.

(** The result of [handleResponse]; [json := JNull] is the source's
    [json: null]. *)
Record CapturedResponse : Type := {
  text : string;
  json : JSValue;
}.

(** The [logEntry] literal of the [res.end] override, its nested objects
    flattened: [timestamp.*], [request.*], [response.*]. *)
Record LogEntry : Type := {
  timestamp_request : string;
  timestamp_response : string;
  timestamp_duration : string;
  request_method : string;
  request_path : string;
  request_headers : Headers;
  request_body : option JSValue;
  response_statusCode : Z;
  response_headers : Headers;
  response_body : JSValue;
}.

(** The value [JSON.stringify] walks; a property holding [undefined] is
    left out. *)
Definition logEntry_json (e : LogEntry) : JSValue :=
  JObject
    [ ("timestamp",
       JObject [ ("request", JString (timestamp_request e));
                 ("response", JString (timestamp_response e));
                 ("duration", JString (timestamp_duration e)) ]);
      ("request",
       JObject ([ ("method", JString (request_method e));
                  ("path", JString (request_path e));
                  ("headers", headers_json (request_headers e)) ]
                ++ match request_body e with
                   | Some b => [ ("body", b) ]
                   | None => []
                   end));
      ("response",
       JObject [ ("statusCode", JNumber (response_statusCode e));
                 ("headers", headers_json (response_headers e));
                 ("body", response_body e) ]) ].

(** The constants the middleware closes over for one request. *)
Record Closure : Type := {
  req : Request;
  requestStartTime : Z;
  requestTime : string;
  requestBody : option JSValue;
}.

Definition chunk_truthy (c : Chunk) : bool :=
  match c with
  | ChunkNone => false
  | ChunkBuf _ => true
  | ChunkStr s => negb (String.eqb s "")
  end.

(** [Buffer.isBuffer(chunk) ? chunk : Buffer.from(chunk)]; also the bytes the
    underlying stream sends for the chunk. *)
Definition chunk_bytes (c : Chunk) : Buffer :=
  match c with
  | ChunkNone => []
  | ChunkBuf b => b
  | ChunkStr s => Buffer_from s
  end.

Definition call_bytes (c : SinkCall) : Buffer :=
  match c with
  | SWrite x | SEnd x => chunk_bytes x
  end.

(** The bytes the client is sent, in order. *)
Definition delivered (calls : list SinkCall) : Buffer := concat (map call_bytes calls).

(** [res.getHeaders()] lists names in lower case; setting replaces. *)
Fixpoint set_header (k : string) (v : HeaderValue) (hs : Headers) : Headers :=
  match hs with
  | [] => [ (k, v) ]
  | (k', v') :: hs' =>
      if String.eqb k k' then (k, v) :: hs' else (k', v') :: set_header k v hs'
  end.

Section Program.

Variable rt : Runtime.

Definition console_log (msg : string) : JS unit :=
  modify (set_console (fun c =>
    c ++ [ {| stream := StdOut; message := msg; cause := None |} ])).

Definition console_error (msg : string) (e : JSError) : JS unit :=
  modify (set_console (fun c =>
    c ++ [ {| stream := StdErr; message := msg; cause := Some e |} ])).

(** [new Date()], as epoch milliseconds. *)
Definition newDate : JS Z :=
  fun w => (Normal (clock rt (dates_read w)), set_dates_read S w).

Definition draw_uuid : JS string :=
  fun w => (Normal (uuidv4 rt (uuids_drawn w)), set_uuids_drawn S w).

(** [fs.writeFileSync(path, data)] for a path inside the log directory: it
    throws when the directory is not there. *)
Definition writeFileSync (file data : string) : JS unit :=
  fun w =>
    if log_dir_present w then (Normal tt, set_files (insert file data) w)
    else (Throw (ENOENT file), w).

(** [path.join(dir, name)] for a plain file name. *)
Definition path_join (dir name : string) : string := dir +:+ "/" +:+ name.

(** The name [createLogFilename] builds from the date and the uuid it draws. *)
Definition log_name (now : Z) (u : string) : string :=
  let timestamp := replace_colon_dot (toISOString rt now) in
  let uniqueId := substring 0 8 u in
  path_join (LOG_DIR rt) ("logs-" +:+ timestamp +:+ "-" +:+ uniqueId +:+ ".log").

Definition createLogFilename : JS string :=
  now ← newDate;
  u ← draw_uuid;
  mret (log_name now u).

(** [headers["content-encoding"]?.toLowerCase()]: only a string has the
    method. *)
Definition contentEncoding_of (hs : Headers) : JS (option string) :=
  match assoc "content-encoding" hs with
  | None => mret None
  | Some (HStr s) => mret (Some (toLowerCase s))
  | Some _ => throw (TypeError "toLowerCase is not a function")
  end.

Definition handleResponse (buffer : Buffer) (hs : Headers) : JS CapturedResponse :=
  try_catch
    (contentEncoding ← contentEncoding_of hs;
     decompressedBuffer ←
       (if bool_decide (contentEncoding = Some "gzip") then
          try_catch
            (or_throw ZlibError (gunzipSync rt buffer))
            (fun error =>
               console_error
                 (chalk rt yellow "Failed to decompress gzipped response") error;;
               mret buffer)
        else mret buffer);
     let responseText := toString_utf8 rt decompressedBuffer in
     try_catch
       (parsed ← or_throw SyntaxError (JSON_parse rt responseText);
        mret {| text := responseText; json := parsed |})
       (fun e => mret {| text := responseText; json := JNull |}))
    (fun error =>
       console_error (chalk rt red "Error processing response") error;;
       mret {| text := "Error processing response"; json := JNull |}).

(** The unpatched [res.write] and [res.end]: the call reaches the wire and
    the headers are sent with the first of them.  Backpressure is not
    modelled: [write] answers [true]. *)
Definition originalWrite (c : Chunk) : JS bool :=
  modify (set_res (fun r =>
    {| headersSent := true; statusCode := statusCode r;
       resHeaders := resHeaders r; wire := wire r ++ [ SWrite c ] |}));;
  mret true.

Definition originalEnd (c : Chunk) : JS unit :=
  modify (set_res (fun r =>
    {| headersSent := true; statusCode := statusCode r;
       resHeaders := resHeaders r; wire := wire r ++ [ SEnd c ] |})).

(** [res.writeHead(status, { name: value })]. *)
Definition writeHead (status : Z) (name : string) (value : string) : JS unit :=
  modify (set_res (fun r =>
    {| headersSent := true; statusCode := status;
       resHeaders := set_header (toLowerCase name) (HStr value) (resHeaders r);
       wire := wire r |})).

(** The middleware up to [next()]: it reads the clock, keeps the request
    and starts an empty [chunks] array. *)
Definition middleware (rq : Request) : JS Closure :=
  start ← newDate;
  modify (set_chunks (fun _ => []));;
  mret {| req := rq; requestStartTime := start;
          requestTime := toISOString rt start; requestBody := body rq |}.

(** [if (chunk) chunks.push(...)]. *)
Definition capture (chunk : Chunk) : JS unit :=
  if chunk_truthy chunk then
    modify (set_chunks (fun cs => cs ++ [ chunk_bytes chunk ]))
  else mret tt.

(** The [res.write] override. *)
Definition res_write (chunk : Chunk) : JS bool :=
  capture chunk;;
  originalWrite chunk.

(** The [res.end] override up to the [logEntry] literal. *)
Definition end_prepare (cl : Closure) (chunk : Chunk)
  : JS (CapturedResponse * LogEntry) :=
  capture chunk;;
  cs ← gets chunks;
  let responseBuffer := Buffer_concat cs in
  t ← newDate;
  let responseTime := toISOString rt t in
  responseHeaders ← gets (fun w => resHeaders (res w));
  processedResponse ← handleResponse responseBuffer responseHeaders;
  t' ← newDate;
  status ← gets (fun w => statusCode (res w));
  mret (processedResponse,
        {| timestamp_request := requestTime cl;
           timestamp_response := responseTime;
           timestamp_duration := pretty (t' - requestStartTime cl)%Z +:+ "ms";
           request_method := method (req cl);
           request_path := path (req cl);
           request_headers := headers (req cl);
           request_body := requestBody cl;
           response_statusCode := status;
           response_headers := responseHeaders;
           response_body :=
             js_or (Some (json processedResponse))
                   (JString (text processedResponse)) |}).

(** [requestBody && requestBody.method]. *)
Definition body_method (b : option JSValue) : option JSValue :=
  match b with
  | Some v => if truthy v then get_prop v "method" else None
  | None => None
  end.

(** [processedResponse.json ? JSON.stringify(processedResponse.json, null, 2)
    : processedResponse.text]. *)
Definition outputText (processedResponse : CapturedResponse) : string :=
  if truthy (json processedResponse)
  then JSON_stringify2 (json processedResponse)
  else text processedResponse.

(** The argument of the one [console.log]. *)
Definition console_block (cl : Closure) (status : Z) (output : string)
    (elapsed : Z) (logFilename : string) : string :=
  chalk rt blue ("[" +:+ requestTime cl +:+ "] " +:+ method (req cl)
                 +:+ " " +:+ path (req cl))
  +:+ match body_method (requestBody cl) with
      | Some m =>
          if truthy m
          then newline +:+ chalk rt green ("Method: " +:+ js_toString m)
          else ""
      | None => ""
      end
  +:+ newline +:+ chalk rt red ("Response status: " +:+ pretty status)
  +:+ newline +:+ chalk rt gray ("Response body: " +:+ output)
  +:+ newline +:+ chalk rt yellow ("Duration: " +:+ pretty elapsed +:+ "ms")
  +:+ newline +:+ chalk rt cyan ("Log saved to: " +:+ logFilename).

(** The rest of the [res.end] override before the original [end]: the log
    file and the console block. *)
Definition end_emit (cl : Closure) (processedResponse : CapturedResponse)
    (logEntry : LogEntry) : JS unit :=
  logFilename ← createLogFilename;
  writeFileSync logFilename (JSON_stringify2 (logEntry_json logEntry));;
  status ← gets (fun w => statusCode (res w));
  t ← newDate;
  console_log
    (console_block cl status (outputText processedResponse)
       (t - requestStartTime cl)%Z logFilename).

(** The [res.end] override. *)
Definition res_end (cl : Closure) (chunk : Chunk) : JS unit :=
  prepared ← end_prepare cl chunk;
  end_emit cl (fst prepared) (snd prepared);;
  originalEnd chunk.

(** The body [onError] sends. *)
Definition error_body (rq : Request) : JSValue :=
  JObject
    [ ("jsonrpc", JString "2.0");
      ("error", JObject [ ("code", JNumber (-32603));
                          ("message", JString "Proxy error") ]);
      ("id", js_or (opt_prop (body rq) "id") JNull) ].

(** The proxy's [onError] hook; [res.end] is the middleware's override. *)
Definition onError (err : JSError) (cl : Closure) : JS unit :=
  console_error "Proxy error:" err;;
  sent ← gets (fun w => headersSent (res w));
  if negb sent then
    writeHead 500 "Content-Type" "application/json";;
    res_end cl (ChunkStr (JSON_stringify (error_body (req cl))))
  else mret tt.

(** A response as its producer drives it: writes, then one [end]. *)
Fixpoint res_writes (cs : list Chunk) : JS unit :=
  match cs with
  | [] => mret tt
  | c :: cs' => res_write c;; res_writes cs'
  end.

Definition respond (cl : Closure) (cs : list Chunk) (last : Chunk) : JS unit :=
  res_writes cs;;
  res_end cl last.

(** One request from the middleware to the end of its response. *)
Definition cycle (rq : Request) (cs : list Chunk) (last : Chunk) : JS unit :=
  cl ← middleware rq;
  respond cl cs last.

(** The same calls on the unpatched response. *)
Fixpoint original_writes (cs : list Chunk) : JS unit :=
  match cs with
  | [] => mret tt
  | c :: cs' => originalWrite c;; original_writes cs'
  end.

Definition respond_unwrapped (cs : list Chunk) (last : Chunk) : JS unit :=
  original_writes cs;;
  originalEnd last.

End Program.

(** ** Start-up

    The module's top-level statements: the [TARGET_URL] check, the log
    directory, and [app.listen].  [process.env] is a map from names to
    strings (after [dotenv.config()]); the file system is the set of
    directories that exist; what the operating system answers to
    [mkdirSync] and to [listen] is the [Host]. *)

(** The value of [PORT]: the number 3000 or the text of [PROXY_PORT]. *)
Inductive Port : Type :=
| PortDefault
| PortEnv (s : string).

(** [`${PORT}`]. *)
Definition port_text (p : Port) : string :=
  match p with
  | PortDefault => "3000"
  | PortEnv s => s
  end.

(** [process.env.PROXY_PORT || 3000]. *)
Definition PORT_of (env : gmap string string) : Port :=
  match env !! "PROXY_PORT" with
  | Some s => if String.eqb s "" then PortDefault else PortEnv s
  | None => PortDefault
  end.

(** An error no statement of the start-up catches. *)
Inductive BootError : Type :=
| EEXIST (dir : string)
| MkdirError (dir : string) (code : string)
| ListenError (port : Port) (code : string).

(** The host: [mkdir_error dir] is the error code creating the missing
    directory [dir] fails with ([EACCES], [ENOENT], [ENOSPC], ...), and
    [listen_error port] the one listening on [port] fails with
    ([ERR_SOCKET_BAD_PORT], [EADDRINUSE], [EACCES], ...); [None] where the
    call succeeds. *)
Record Host : Type := {
  mkdir_error : string -> option string;
  listen_error : Port -> option string;
}.

(** [fs.mkdirSync(dir)]: it throws [EEXIST] on a directory that exists, and
    otherwise what the host answers. *)
Definition mkdirSync (host : Host) (dir : string) (dirs : gset string)
  : BootError + gset string :=
  if bool_decide (dir ∈ dirs) then inl (EEXIST dir)
  else
    match mkdir_error host dir with
    | Some code => inl (MkdirError dir code)
    | None => inr ({[ dir ]} ∪ dirs)
    end.

(** How the start-up ends: [process.exit(code)] with the console lines
    printed before it; an uncaught error, with the directories as they are
    then; or a listening server, with the directories, the three lines of
    the [listen] callback and the port. *)
Inductive Boot : Type :=
| Exited (code : Z) (out : list ConsoleEntry)
| Crashed (e : BootError) (dirs : gset string)
| Listening (dirs : gset string) (out : list ConsoleEntry) (port : Port).

Definition startup (host : Host) (log_dir : string) (env : gmap string string)
    (dirs : gset string) : Boot :=
  let refuse :=
    Exited 1 [ {| stream := StdErr;
                  message := "Please set TARGET_URL in your environment variables";
                  cause := None |} ] in
  match env !! "TARGET_URL" with
  | None => refuse
  | Some TARGET_URL =>
      if String.eqb TARGET_URL "" then refuse
      else
        match (if bool_decide (log_dir ∈ dirs) then inr dirs
               else mkdirSync host log_dir dirs) with
        | inl e => Crashed e dirs
        | inr dirs' =>
            let PORT := PORT_of env in
            match listen_error host PORT with
            | Some code => Crashed (ListenError PORT code) dirs'
            | None =>
                Listening dirs'
                  [ {| stream := StdOut;
                       message :=
                         "Proxy server running at http://localhost:" +:+ port_text PORT;
                       cause := None |};
                    {| stream := StdOut;
                       message := "Proxying requests to: " +:+ TARGET_URL;
                       cause := None |};
                    {| stream := StdOut;
                       message := "Logs stored in: " +:+ log_dir;
                       cause := None |} ]
                  PORT
            end
        end
  end.

(** ** The middleware chain

    [app.use(express.json())] comes before the logging middleware, and the
    proxy after it.  What [express.json()] makes of a request is a parameter:
    it leaves a body in [req.body] and calls [next()], or it fails (a
    malformed or oversized JSON body) and Express's error handler answers
    on the response as it is then. *)

(** The request as it arrives; [raw] is the body as sent. *)
Record Incoming : Type := {
  in_method : string;
  in_path : string;
  in_headers : Headers;
  in_raw : string;
}.

(** What Express's error handler does with a failure of [express.json()]:
    the line it prints on stderr, and the status, headers and page it
    sends. *)
Record Rejection : Type := {
  rej_stack : string;
  rej_status : Z;
  rej_headers : Headers;
  rej_page : string;
}.

Inductive BodyParse : Type :=
| BodyAccepted (body : option JSValue)
| BodyRejected (r : Rejection).

(** Express's error handler; the logging middleware has not run, so [end]
    is the original one. *)
Definition send_error (r : Rejection) : JS unit :=
  modify (set_console (fun c =>
    c ++ [ {| stream := StdErr; message := rej_stack r; cause := None |} ]));;
  modify (set_res (fun rs =>
    {| headersSent := headersSent rs; statusCode := rej_status r;
       resHeaders := rej_headers r; wire := wire rs |}));;
  originalEnd (ChunkStr (rej_page r)).

(** One request through the chain; [cs] and [last] are what the proxy
    writes when the request reaches it. *)
Definition app_handle (rt : Runtime) (express_json : Incoming -> BodyParse) (inc : Incoming)
    (cs : list Chunk) (last : Chunk) : JS unit :=
  match express_json inc with
  | BodyAccepted b =>
      cycle rt {| method := in_method inc; path := in_path inc;
                  headers := in_headers inc; body := b |} cs last
  | BodyRejected r => send_error r
  end.

(** ** Vocabulary of the statements *)

(** The record the outer [catch] returns. *)
Definition error_response : CapturedResponse :=
  {| text := "Error processing response"; json := JNull |}.

(** A world after one [console.error]. *)
Definition warned (msg : string) (e : JSError) (w : World) : World :=
  set_console (fun c => c ++ [ {| stream := StdErr; message := msg; cause := Some e |} ]) w.

(** Whether [headers["content-encoding"]?.toLowerCase()] can be evaluated. *)
Definition encoding_readable (hs : Headers) : bool :=
  match assoc "content-encoding" hs with
  | Some (HNum _) | Some (HArr _) => false
  | Some (HStr _) | None => true
  end.

(** Whether the header asks for gzip. *)
Definition is_gzip (hs : Headers) : bool :=
  match assoc "content-encoding" hs with
  | Some (HStr s) => bool_decide (toLowerCase s = "gzip")
  | _ => false
  end.

(** The result of the inner [try]/[catch] around [JSON.parse]. *)
Definition parsed (rt : Runtime) (responseText : string) : CapturedResponse :=
  {| text := responseText;
     json := match JSON_parse rt responseText with Some v => v | None => JNull end |}.

(** The bytes [handleResponse] turns into text: the inflated buffer when
    gzip is asked and [gunzipSync] succeeds, the buffer itself otherwise. *)
Definition decoded (rt : Runtime) (buffer : Buffer) (hs : Headers) : Buffer :=
  if is_gzip hs then
    match gunzipSync rt buffer with Some d => d | None => buffer end
  else buffer.

(** The world after the decompression step: one warning when gzip is asked
    and [gunzipSync] throws. *)
Definition after_decode (rt : Runtime) (buffer : Buffer) (hs : Headers) (w : World) : World :=
  if is_gzip hs then
    match gunzipSync rt buffer with
    | Some _ => w
    | None => warned (chalk rt yellow "Failed to decompress gzipped response") ZlibError w
    end
  else w.

(** What [chunks] gains from a sequence of chunks: the bytes of the truthy
    ones, in order. *)
Definition captured (cs : list Chunk) : list Buffer :=
  map chunk_bytes (List.filter chunk_truthy cs).

(** The world after [if (chunk) chunks.push(...)]. *)
Definition pushed (c : Chunk) (w : World) : World :=
  if chunk_truthy c then set_chunks (fun cs => cs ++ [ chunk_bytes c ]) w else w.

(** The world after a call reached the underlying response. *)
Definition sent (call : SinkCall) (w : World) : World :=
  set_res (fun r =>
    {| headersSent := true; statusCode := statusCode r;
       resHeaders := resHeaders r; wire := wire r ++ [ call ] |}) w.

(** The world after a sequence of patched, respectively unpatched, writes. *)
Definition after_writes (cs : list Chunk) (w : World) : World :=
  fold_left (fun w c => sent (SWrite c) (pushed c w)) cs w.

Definition after_original_writes (cs : list Chunk) (w : World) : World :=
  fold_left (fun w c => sent (SWrite c) w) cs w.

(** The [console.log] calls among console entries. *)
Definition blocks (c : list ConsoleEntry) : list ConsoleEntry :=
  List.filter (fun e => match stream e with StdOut => true | StdErr => false end) c.

(** What [handleResponse] returns and what it prints, as functions of its
    arguments. *)
Definition response_of (rt : Runtime) (buffer : Buffer) (hs : Headers) : CapturedResponse :=
  if encoding_readable hs
  then parsed rt (toString_utf8 rt (decoded rt buffer hs))
  else error_response.

Definition diagnostics (rt : Runtime) (buffer : Buffer) (hs : Headers) : list ConsoleEntry :=
  if encoding_readable hs then
    if is_gzip hs then
      match gunzipSync rt buffer with
      | Some _ => []
      | None =>
          [ {| stream := StdErr;
               message := chalk rt yellow "Failed to decompress gzipped response";
               cause := Some ZlibError |} ]
      end
    else []
  else
    [ {| stream := StdErr;
         message := chalk rt red "Error processing response";
         cause := Some (TypeError "toLowerCase is not a function") |} ].

(** The response buffer, the decoded response and the log entry of a
    [res.end(chunk)] entered in world [w]. *)
Definition responseBuffer_at (chunk : Chunk) (w : World) : Buffer :=
  Buffer_concat (chunks (pushed chunk w)).

Definition processed_at (rt : Runtime) (chunk : Chunk) (w : World) : CapturedResponse :=
  response_of rt (responseBuffer_at chunk w) (resHeaders (res w)).

Definition logEntry_at (rt : Runtime) (cl : Closure) (chunk : Chunk) (w : World) : LogEntry :=
  {| timestamp_request := requestTime cl;
     timestamp_response := toISOString rt (clock rt (dates_read w));
     timestamp_duration :=
       pretty (clock rt (S (dates_read w)) - requestStartTime cl)%Z +:+ "ms";
     request_method := method (req cl);
     request_path := path (req cl);
     request_headers := headers (req cl);
     request_body := requestBody cl;
     response_statusCode := statusCode (res w);
     response_headers := resHeaders (res w);
     response_body :=
       js_or (Some (json (processed_at rt chunk w)))
             (JString (text (processed_at rt chunk w))) |}.

(** The world when the [logEntry] literal has been evaluated. *)
Definition prepared_world (rt : Runtime) (chunk : Chunk) (w : World) : World :=
  set_dates_read S
    (set_console
       (fun c => c ++ diagnostics rt (responseBuffer_at chunk w) (resHeaders (res w)))
       (set_dates_read S (pushed chunk w))).

(** The file name and the console block of a [res.end] whose [logEntry] was
    evaluated in world [w] (the preparation read the clock twice). *)
Definition logFilename_at (rt : Runtime) (w : World) : string :=
  log_name rt (clock rt (S (S (dates_read w)))) (uuidv4 rt (uuids_drawn w)).

Definition block_at (rt : Runtime) (cl : Closure) (chunk : Chunk) (w : World) : ConsoleEntry :=
  {| stream := StdOut;
     message :=
       console_block rt cl (statusCode (res w)) (outputText (processed_at rt chunk w))
         (clock rt (S (S (S (dates_read w)))) - requestStartTime cl)%Z
         (logFilename_at rt w);
     cause := None |}.

(** The world a [res.end(chunk)] entered in [w] leaves when the log file
    could be written, and the one it leaves when [writeFileSync] threw. *)
Definition ended_world (rt : Runtime) (cl : Closure) (chunk : Chunk) (w : World) : World :=
  sent (SEnd chunk)
    (set_console (fun c => c ++ [ block_at rt cl chunk w ])
       (set_dates_read S
          (set_files
             (insert (logFilename_at rt w)
                (JSON_stringify2 (logEntry_json (logEntry_at rt cl chunk w))))
             (set_uuids_drawn S (set_dates_read S (prepared_world rt chunk w)))))).

Definition failed_world (rt : Runtime) (chunk : Chunk) (w : World) : World :=
  set_uuids_drawn S (set_dates_read S (prepared_world rt chunk w)).

(** Whether a string still holds a colon or a dot. *)
Fixpoint has_colon_dot (s : string) : bool :=
  match s with
  | EmptyString => false
  | String c s' => (Ascii.eqb c ":" || Ascii.eqb c "." || has_colon_dot s')%bool
  end.

(** The two parts of the name [createLogFilename] builds in world [w]. *)
Definition stamp_at (rt : Runtime) (w : World) : string :=
  replace_colon_dot (toISOString rt (clock rt (dates_read w))).

Definition suffix_at (rt : Runtime) (w : World) : string :=
  substring 0 8 (uuidv4 rt (uuids_drawn w)).

(** The text of the JSON-RPC error object with the text [id] for its id. *)
Definition proxy_error_text (id : string) : string :=
  "{" +:+ dquote +:+ "jsonrpc" +:+ dquote +:+ ":" +:+ dquote +:+ "2.0" +:+ dquote
  +:+ "," +:+ dquote +:+ "error" +:+ dquote +:+ ":{"
  +:+ dquote +:+ "code" +:+ dquote +:+ ":-32603,"
  +:+ dquote +:+ "message" +:+ dquote +:+ ":" +:+ dquote +:+ "Proxy error" +:+ dquote
  +:+ "}," +:+ dquote +:+ "id" +:+ dquote +:+ ":" +:+ id +:+ "}".







(** ** A reference runtime

    An executable [Runtime] for closed instances of the theorems below, which
    themselves hold for every runtime.  Each component follows its standard
    on the inputs it accepts and answers [None] elsewhere: [gunzipSync]
    decodes gzip members (RFC 1952) without optional header fields whose
    DEFLATE stream consists of stored blocks (RFC 1951, 3.2.4), and checks
    the CRC-32 and the size; [JSON_parse] reads the JSON grammar with integer
    numbers and the two-character escapes; [toString_utf8] is exact on valid
    UTF-8; [toISOString] prints years 0000 to 9999; [chalk] is chalk without
    colour support. *)
Module Ref.

Definition byteZ (b : Byte.byte) : Z := Z.of_N (Byte.to_N b).

Definition crc_shift (c : Z) : Z :=
  if Z.testbit c 0 then Z.lxor (Z.shiftr c 1) 3988292384%Z else Z.shiftr c 1.

Definition crc_byte (crc : Z) (b : Byte.byte) : Z :=
  Nat.iter 8 crc_shift (Z.lxor crc (byteZ b)).

Definition crc32 (bs : Buffer) : Z :=
  Z.lxor (fold_left crc_byte bs 4294967295%Z) 4294967295%Z.

Definition le16 (a b : Byte.byte) : Z := (byteZ a + 256 * byteZ b)%Z.

Definition le32 (a b c d : Byte.byte) : Z :=
  (byteZ a + 256 * (byteZ b + 256 * (byteZ c + 256 * byteZ d)))%Z.

(** Stored blocks up to the final one, then the member's trailer. *)
Fixpoint inflate_stored (fuel : nat) (bs acc : Buffer) : option Buffer :=
  match fuel, bs with
  | S fuel', h :: l0 :: l1 :: n0 :: n1 :: rest =>
      let len := le16 l0 l1 in
      if negb (Z.land (byteZ h) 6%Z =? 0)%Z then None
      else if negb (len + le16 n0 n1 =? 65535)%Z then None
      else if negb (Z.of_nat (length rest) >=? len)%Z then None
      else
        let data := take (Z.to_nat len) rest in
        let rest' := drop (Z.to_nat len) rest in
        if Z.testbit (byteZ h) 0 then
          match rest' with
          | [c0; c1; c2; c3; s0; s1; s2; s3] =>
              let out := acc ++ data in
              if ((le32 c0 c1 c2 c3 =? crc32 out)
                  && (le32 s0 s1 s2 s3 =? Z.of_nat (length out) mod 4294967296))%Z
              then Some out else None
          | _ => None
          end
        else inflate_stored fuel' rest' (acc ++ data)
  | _, _ => None
  end.

Definition gunzipSync (bs : Buffer) : option Buffer :=
  match bs with
  | id1 :: id2 :: cm :: flg :: _ :: _ :: _ :: _ :: _ :: _ :: rest =>
      if ((byteZ id1 =? 31) && (byteZ id2 =? 139) && (byteZ cm =? 8)
          && (byteZ flg =? 0))%Z
      then inflate_stored (length rest) rest []
      else None
  | _ => None
  end.

Definition toString_utf8 (bs : Buffer) : string := string_of_list_byte bs.

(** *** JSON text *)

Definition is_ws (c : ascii) : bool :=
  let n := nat_of_ascii c in
  (Nat.eqb n 32 || Nat.eqb n 9 || Nat.eqb n 10 || Nat.eqb n 13)%bool.

Definition is_digit (c : ascii) : bool :=
  let n := nat_of_ascii c in (Nat.leb 48 n && Nat.leb n 57)%bool.

Fixpoint skip_ws (s : string) : string :=
  match s with
  | String c s' => if is_ws c then skip_ws s' else s
  | EmptyString => s
  end.

(** [s] without the prefix [p]. *)
Fixpoint expect (p s : string) : option string :=
  match p, s with
  | EmptyString, _ => Some s
  | String a p', String b s' => if Ascii.eqb a b then expect p' s' else None
  | _, _ => None
  end.

(** The digits at the head of [s], their value accumulated in [acc]. *)
Fixpoint digits (s : string) (acc : Z) : Z * string :=
  match s with
  | String c s' =>
      if is_digit c then digits s' (10 * acc + Z.of_nat (nat_of_ascii c - 48))%Z
      else (acc, s)
  | EmptyString => (acc, s)
  end.

(** After an integer no fraction or exponent may follow. *)
Definition integer_end (s : string) : bool :=
  match s with
  | String c _ => negb (Ascii.eqb c "." || Ascii.eqb c "e" || Ascii.eqb c "E")
  | EmptyString => true
  end.

Definition unsigned (s : string) : option (Z * string) :=
  match s with
  | String c s' =>
      if Ascii.eqb c "0" then
        if integer_end s' then Some (0%Z, s') else None
      else if is_digit c then
        let r := digits s 0%Z in
        if integer_end (snd r) then Some r else None
      else None
  | EmptyString => None
  end.

Definition number (s : string) : option (Z * string) :=
  match s with
  | String c s' =>
      if Ascii.eqb c "-" then
        match unsigned s' with
        | Some (n, r) => Some ((- n)%Z, r)
        | None => None
        end
      else unsigned s
  | EmptyString => None
  end.

Definition unescape (c : ascii) : option ascii :=
  let n := nat_of_ascii c in
  if Nat.eqb n 34 then Some c
  else if Nat.eqb n 92 then Some c
  else if Nat.eqb n 47 then Some c
  else if Ascii.eqb c "b" then Some "008"%char
  else if Ascii.eqb c "f" then Some "012"%char
  else if Ascii.eqb c "n" then Some "010"%char
  else if Ascii.eqb c "r" then Some "013"%char
  else if Ascii.eqb c "t" then Some "009"%char
  else None.

(** The characters of a string literal after its opening quote. *)
Fixpoint chars (s : string) : option (string * string) :=
  match s with
  | EmptyString => None
  | String c s' =>
      let n := nat_of_ascii c in
      if Nat.eqb n 34 then Some (EmptyString, s')
      else if Nat.ltb n 32 then None
      else if Nat.eqb n 92 then
        match s' with
        | String e s'' =>
            match unescape e, chars s'' with
            | Some x, Some (body, r) => Some (String x body, r)
            | _, _ => None
            end
        | EmptyString => None
        end
      else
        match chars s' with
        | Some (body, r) => Some (String c body, r)
        | None => None
        end
  end.

(** A later binding of a name replaces the earlier one in place. *)
Fixpoint put (k : string) (v : JSValue) (l : list (string * JSValue))
  : list (string * JSValue) :=
  match l with
  | [] => [ (k, v) ]
  | (k', v') :: l' =>
      if String.eqb k k' then (k, v) :: l' else (k', v') :: put k v l'
  end.

Fixpoint value (fuel : nat) (s : string) : option (JSValue * string) :=
  match fuel with
  | O => None
  | S fuel' =>
      match skip_ws s with
      | EmptyString => None
      | String c r as s0 =>
          if Ascii.eqb c "n" then
            option_map (fun r' => (JNull, r')) (expect "ull" r)
          else if Ascii.eqb c "t" then
            option_map (fun r' => (JBool true, r')) (expect "rue" r)
          else if Ascii.eqb c "f" then
            option_map (fun r' => (JBool false, r')) (expect "alse" r)
          else if Nat.eqb (nat_of_ascii c) 34 then
            option_map (fun p => (JString (fst p), snd p)) (chars r)
          else if Ascii.eqb c "[" then
            match skip_ws r with
            | String c' r' =>
                if Ascii.eqb c' "]" then Some (JArray [], r')
                else elements fuel' r []
            | EmptyString => None
            end
          else if Ascii.eqb c "{" then
            match skip_ws r with
            | String c' r' =>
                if Ascii.eqb c' "}" then Some (JObject [], r')
                else members fuel' r []
            | EmptyString => None
            end
          else option_map (fun p => (JNumber (fst p), snd p)) (number s0)
      end
  end
with elements (fuel : nat) (s : string) (acc : list JSValue)
  : option (JSValue * string) :=
  match fuel with
  | O => None
  | S fuel' =>
      match value fuel' s with
      | Some (v, r) =>
          match skip_ws r with
          | String c r' =>
              if Ascii.eqb c "," then elements fuel' r' (acc ++ [ v ])
              else if Ascii.eqb c "]" then Some (JArray (acc ++ [ v ]), r')
              else None
          | EmptyString => None
          end
      | None => None
      end
  end
with members (fuel : nat) (s : string) (acc : list (string * JSValue))
  : option (JSValue * string) :=
  match fuel with
  | O => None
  | S fuel' =>
      match skip_ws s with
      | String q r =>
          if Nat.eqb (nat_of_ascii q) 34 then
            match chars r with
            | Some (k, r1) =>
                match skip_ws r1 with
                | String c r2 =>
                    if Ascii.eqb c ":" then
                      match value fuel' r2 with
                      | Some (v, r3) =>
                          match skip_ws r3 with
                          | String c' r4 =>
                              if Ascii.eqb c' "," then members fuel' r4 (put k v acc)
                              else if Ascii.eqb c' "}" then
                                Some (JObject (put k v acc), r4)
                              else None
                          | EmptyString => None
                          end
                      | None => None
                      end
                    else None
                | EmptyString => None
                end
            | None => None
            end
          else None
      | EmptyString => None
      end
  end.

Definition JSON_parse (s : string) : option JSValue :=
  match value (2 * String.length s + 2) s with
  | Some (v, r) =>
      match skip_ws r with
      | EmptyString => Some v
      | String _ _ => None
      end
  | None => None
  end.

(** *** Dates *)

(** Year, month and day of a count of days since 1970-01-01. *)
Definition civil (days : Z) : Z * Z * Z :=
  let z := (days + 719468)%Z in
  let era := (z / 146097)%Z in
  let doe := (z - era * 146097)%Z in
  let yoe := ((doe - doe / 1460 + doe / 36524 - doe / 146096) / 365)%Z in
  let doy := (doe - (365 * yoe + yoe / 4 - yoe / 100))%Z in
  let mp := ((5 * doy + 2) / 153)%Z in
  let d := (doy - (153 * mp + 2) / 5 + 1)%Z in
  let m := (if (mp <? 10)%Z then mp + 3 else mp - 9)%Z in
  let y := (yoe + era * 400 + (if (m <=? 2)%Z then 1 else 0))%Z in
  (y, m, d).

(** [n] in decimal, padded with zeros to [width] digits. *)
Definition pad (width : nat) (n : Z) : string :=
  let s := pretty n in
  String.concat "" (repeat "0" (width - String.length s)) +:+ s.

Definition toISOString (ms : Z) : string :=
  let days := (ms / 86400000)%Z in
  let r := (ms mod 86400000)%Z in
  match civil days with
  | (y, m, d) =>
      pad 4 y +:+ "-" +:+ pad 2 m +:+ "-" +:+ pad 2 d +:+ "T"
      +:+ pad 2 (r / 3600000)%Z +:+ ":" +:+ pad 2 (r / 60000 mod 60)%Z +:+ ":"
      +:+ pad 2 (r / 1000 mod 60)%Z +:+ "." +:+ pad 3 (r mod 1000)%Z +:+ "Z"
  end.

Definition runtime (clk : nat -> Z) (ids : nat -> string) : Runtime :=
  Build_Runtime gunzipSync toString_utf8 JSON_parse toISOString clk ids
    (fun _ s => s) "/app/logs".

(** *** Sample data *)

Definition bytes (l : list nat) : Buffer :=
  map (fun n => byte_of_ascii (ascii_of_nat n)) l.

(** The gzip member zlib writes for [hi] at level 0. *)
Definition gz_hi : Buffer :=
  bytes [31; 139; 8; 0; 0; 0; 0; 0; 4; 3; 1; 2; 0; 253; 255; 104; 105;
         172; 42; 147; 216; 2; 0; 0; 0].

(** Two version-4 uuids with the same first eight characters. *)
Definition uuid_a : string := "1b4e28ba-2fa1-41d2-883f-0016d3cca427".
Definition uuid_b : string := "1b4e28ba-7c3d-4e5f-9a1b-2c3d4e5f6a7b".

(** A clock that advances five milliseconds between two readings, from
    2023-11-14T22:13:20.000Z on. *)
Definition ticking (n : nat) : Z := (1700000000000 + 5 * Z.of_nat n)%Z.

(** A clock that stands still. *)
Definition frozen (n : nat) : Z := 1700000000000%Z.

Definition node : Runtime :=
  runtime ticking (fun n => if Nat.even n then uuid_a else uuid_b).

Definition node_frozen : Runtime :=
  runtime frozen (fun n => if Nat.even n then uuid_a else uuid_b).

(** A fresh response in a process whose log directory exists. *)
Definition world0 : World :=
  {| console := []; log_dir_present := true; files := ∅;
     dates_read := 0; uuids_drawn := 0;
     res := {| headersSent := false; statusCode := 200;
               resHeaders := [ ("x-powered-by", HStr "Express") ]; wire := [] |};
     chunks := [] |}.

(** The same with the log directory removed. *)
Definition world_nodir : World :=
  {| console := []; log_dir_present := false; files := ∅;
     dates_read := 0; uuids_drawn := 0;
     res := {| headersSent := false; statusCode := 200;
               resHeaders := [ ("x-powered-by", HStr "Express") ]; wire := [] |};
     chunks := [] |}.

(** A JSON-RPC call whose [id] is the number 0. *)
Definition rq : Request :=
  {| method := "POST"; path := "/";
     headers := [ ("content-type", HStr "application/json") ];
     body := Some (JObject [ ("jsonrpc", JString "2.0");
                             ("method", JString "eth_chainId");
                             ("id", JNumber 0) ]) |}.

(** What the middleware closes over for [rq] when it reads the clock first. *)
Definition closure0 : Closure :=
  {| req := rq; requestStartTime := ticking 0;
     requestTime := toISOString (ticking 0); requestBody := body rq |}.

(** A response that declares gzip. *)
Definition world_gzip : World :=
  {| console := []; log_dir_present := true; files := ∅;
     dates_read := 1; uuids_drawn := 0;
     res := {| headersSent := false; statusCode := 200;
               resHeaders := [ ("x-powered-by", HStr "Express");
                               ("content-encoding", HStr "gzip") ];
               wire := [] |};
     chunks := [] |}.

(** [world0] once the middleware has read the clock. *)
Definition world1 : World :=
  {| console := []; log_dir_present := true; files := ∅;
     dates_read := 1; uuids_drawn := 0;
     res := {| headersSent := false; statusCode := 200;
               resHeaders := [ ("x-powered-by", HStr "Express") ]; wire := [] |};
     chunks := [] |}.





(** [express.json()] with its defaults, for closed instances: a body under
    [content-type: application/json] must parse to an object or an array
    (strict mode), otherwise the request is rejected with 400; without a
    body, or under another content type, [req.body] is the empty object. *)
Definition express_json (inc : Incoming) : BodyParse :=
  match assoc "content-type" (in_headers inc) with
  | Some (HStr "application/json") =>
      if String.eqb (in_raw inc) "" then BodyAccepted (Some (JObject []))
      else
        match JSON_parse (in_raw inc) with
        | Some (JObject props) => BodyAccepted (Some (JObject props))
        | Some (JArray xs) => BodyAccepted (Some (JArray xs))
        | _ =>
            BodyRejected
              {| rej_stack := "SyntaxError: Unexpected token in JSON";
                 rej_status := 400;
                 rej_headers := [ ("x-powered-by", HStr "Express");
                                  ("content-type", HStr "text/html; charset=utf-8") ];
                 rej_page := "<pre>Bad Request</pre>" |}
        end
  | _ => BodyAccepted (Some (JObject []))
  end.

(** A POST whose JSON body breaks off after the opening brace. *)
Definition broken : Incoming :=
  {| in_method := "POST"; in_path := "/";
     in_headers := [ ("content-type", HStr "application/json") ];
     in_raw := "{" |}.

End Ref.

(** ** Tactics *)

Ltac js_unfold :=
  unfold mbind, mret, JS_bind, JS_ret, try_catch, or_throw, throw, gets, modify,
    console_error, console_log in *.

Ltac world_simpl :=
  cbn [res chunks console files dates_read uuids_drawn log_dir_present
       sent set_res set_console set_dates_read set_files set_uuids_drawn set_chunks].

(** ** The reference runtime on known values *)

Example crc32_check_value : Ref.crc32 (Buffer_from "123456789") = 3421780262%Z.
Proof. vm_compute. reflexivity. Qed.

Example gunzip_stored_member : Ref.gunzipSync Ref.gz_hi = Some (Buffer_from "hi").
Proof. vm_compute. reflexivity. Qed.

Example gunzip_rejects_plain_text : Ref.gunzipSync (Buffer_from "not gzip") = None.
Proof. reflexivity. Qed.

Example toISOString_leap_day :
  Ref.toISOString 951782400000 = "2000-02-29T00:00:00.000Z"
  /\ Ref.toISOString 0 = "1970-01-01T00:00:00.000Z"
  /\ Ref.toISOString 1709164799999 = "2024-02-28T23:59:59.999Z".
Proof. repeat split; vm_compute; reflexivity. Qed.

Example JSON_parse_values :
  Ref.JSON_parse "null" = Some JNull
  /\ Ref.JSON_parse "false" = Some (JBool false)
  /\ Ref.JSON_parse " -12 " = Some (JNumber (-12))
  /\ Ref.JSON_parse "[1, [], {}]" = Some (JArray [ JNumber 1; JArray []; JObject [] ])
  /\ Ref.JSON_parse "01" = None
  /\ Ref.JSON_parse "[1,]" = None
  /\ Ref.JSON_parse "not gzip" = None.
Proof. repeat split; vm_compute; reflexivity. Qed.

Example JSON_parse_after_stringify :
  Ref.JSON_parse (JSON_stringify2 (error_body Ref.rq)) = Some (error_body Ref.rq).
Proof. vm_compute. reflexivity. Qed.

(** ** Running the monad *)

Lemma run_bind {A B : Type} (m : JS A) (k : A -> JS B) (w : World) :
  (m ≫= k) w =
  match m w with
  | (Normal a, w') => k a w'
  | (Throw e, w') => (Throw e, w')
  end.
Proof. reflexivity. Qed.

Lemma run_ret {A : Type} (a : A) (w : World) : (mret a : JS A) w = (Normal a, w).
Proof. reflexivity. Qed.

Lemma run_try_catch {A : Type} (body : JS A) (handler : JSError -> JS A) (w : World) :
  try_catch body handler w =
  match body w with
  | (Normal a, w') => (Normal a, w')
  | (Throw e, w') => handler e w'
  end.
Proof. reflexivity. Qed.

(** ** [handleResponse] *)

Section HandleResponse.

Variable rt : Runtime.

Lemma parse_stage (responseText : string) (w : World) :
  try_catch
    (parsed ← or_throw SyntaxError (JSON_parse rt responseText);
     mret {| text := responseText; json := parsed |})
    (fun e => mret {| text := responseText; json := JNull |}) w
  = (Normal (parsed rt responseText), w).
Proof.
  unfold parsed. js_unfold. by destruct (JSON_parse rt responseText).
Qed.

(** A header value without [toLowerCase]: the outer [catch] answers. *)
Lemma handleResponse_unreadable (buffer : Buffer) (hs : Headers) (w : World) :
  encoding_readable hs = false ->
  handleResponse rt buffer hs w =
  (Normal error_response,
   warned (chalk rt red "Error processing response")
          (TypeError "toLowerCase is not a function") w).
Proof.
  unfold encoding_readable, handleResponse, contentEncoding_of.
  destruct (assoc "content-encoding" hs) as [[n | s | l] |]; try discriminate;
    intros _; reflexivity.
Qed.

(** No gzip asked: the bytes are decoded as they are. *)
Lemma handleResponse_plain (buffer : Buffer) (hs : Headers) (w : World) :
  encoding_readable hs = true -> is_gzip hs = false ->
  handleResponse rt buffer hs w = (Normal (parsed rt (toString_utf8 rt buffer)), w).
Proof.
  unfold encoding_readable, is_gzip, handleResponse, contentEncoding_of.
  destruct (assoc "content-encoding" hs) as [[n | s | l] |]; try discriminate;
    intros _ Hg.
  - rewrite run_try_catch, run_bind, run_ret, run_bind.
    rewrite bool_decide_eq_false in Hg.
    rewrite bool_decide_false by congruence.
    rewrite run_ret, parse_stage. reflexivity.
  - rewrite run_try_catch, run_bind, run_ret, run_bind.
    rewrite bool_decide_false by congruence.
    rewrite run_ret, parse_stage. reflexivity.
Qed.

(** gzip asked and the buffer inflates. *)
Lemma handleResponse_gzip_ok (buffer d : Buffer) (hs : Headers) (w : World) :
  is_gzip hs = true -> gunzipSync rt buffer = Some d ->
  handleResponse rt buffer hs w = (Normal (parsed rt (toString_utf8 rt d)), w).
Proof.
  unfold is_gzip, handleResponse, contentEncoding_of.
  destruct (assoc "content-encoding" hs) as [[n | s | l] |]; try discriminate.
  intros Hg Hz. rewrite bool_decide_eq_true in Hg.
  rewrite run_try_catch, run_bind, run_ret, run_bind.
  rewrite bool_decide_true by congruence.
  rewrite run_try_catch, Hz. cbn [or_throw]. rewrite run_ret, parse_stage.
  reflexivity.
Qed.

(** gzip asked and [gunzipSync] throws. *)
Lemma handleResponse_gzip_fail (buffer : Buffer) (hs : Headers) (w : World) :
  is_gzip hs = true -> gunzipSync rt buffer = None ->
  handleResponse rt buffer hs w =
  (Normal (parsed rt (toString_utf8 rt buffer)),
   warned (chalk rt yellow "Failed to decompress gzipped response") ZlibError w).
Proof.
  unfold is_gzip, handleResponse, contentEncoding_of.
  destruct (assoc "content-encoding" hs) as [[n | s | l] |]; try discriminate.
  intros Hg Hz. rewrite bool_decide_eq_true in Hg.
  rewrite run_try_catch, run_bind, run_ret, run_bind.
  rewrite bool_decide_true by congruence.
  rewrite run_try_catch, Hz. cbn [or_throw]. unfold throw.
  rewrite run_bind. unfold console_error, modify at 1.
  rewrite run_ret, parse_stage. reflexivity.
Qed.

End HandleResponse.




(** C2. When the [content-encoding] header is a string equal to [gzip] up to
    letter case: if [gunzipSync] inflates the buffer, the text is the UTF-8
    decoding of the inflated bytes and nothing else happens; if [gunzipSync]
    throws, [handleResponse] still returns normally, the text is the UTF-8
    decoding of the original bytes, and one warning is on the console. *)
Theorem handleResponse_gzip (rt : Runtime) (buffer : Buffer) (hs : Headers)
    (s : string) (w : World) :
  assoc "content-encoding" hs = Some (HStr s) ->
  toLowerCase s = "gzip" ->
  exists r w',
    handleResponse rt buffer hs w = (Normal r, w')
    /\ match gunzipSync rt buffer with
       | Some d => text r = toString_utf8 rt d /\ w' = w
       | None =>
           text r = toString_utf8 rt buffer
           /\ w' = warned (chalk rt yellow "Failed to decompress gzipped response")
                          ZlibError w
       end.
Proof.
  intros Hh Hs.
  assert (Hg : is_gzip hs = true).
  { unfold is_gzip. rewrite Hh. by apply bool_decide_eq_true. }
  destruct (gunzipSync rt buffer) as [d |] eqn:Hz.
  - eexists _, _. rewrite (handleResponse_gzip_ok _ _ d) by done. done.
  - eexists _, _. rewrite handleResponse_gzip_fail by done. done.
Qed.

(** C2 at a gzip member of [hi] under the header value [GZip]. *)
Lemma handleResponse_gzip_witness :
  exists r w',
    handleResponse Ref.node Ref.gz_hi [ ("content-encoding", HStr "GZip") ] Ref.world0
    = (Normal r, w')
    /\ match gunzipSync Ref.node Ref.gz_hi with
       | Some d => text r = toString_utf8 Ref.node d /\ w' = Ref.world0
       | None =>
           text r = toString_utf8 Ref.node Ref.gz_hi
           /\ w' = warned (chalk Ref.node yellow "Failed to decompress gzipped response")
                          ZlibError Ref.world0
       end.
Proof.
  exact (handleResponse_gzip Ref.node Ref.gz_hi
           [ ("content-encoding", HStr "GZip") ] "GZip" Ref.world0 eq_refl eq_refl).
Defined.

(** C3. Whenever the header can be read, [handleResponse] returns the decoded
    text in full; [json] is the parsed value when [JSON.parse] accepts the
    text, and [null] when it throws.  A parse failure leaves no trace: the
    world is the one the decompression step left.  (The parsed value of the
    text [null] is [null] itself.) *)
Theorem handleResponse_json (rt : Runtime) (buffer : Buffer) (hs : Headers) (w : World) :
  encoding_readable hs = true ->
  exists r,
    handleResponse rt buffer hs w = (Normal r, after_decode rt buffer hs w)
    /\ text r = toString_utf8 rt (decoded rt buffer hs)
    /\ (forall v, JSON_parse rt (text r) = Some v -> json r = v)
    /\ (JSON_parse rt (text r) = None -> json r = JNull).
Proof.
  intros Hr. exists (parsed rt (toString_utf8 rt (decoded rt buffer hs))).
  unfold decoded, after_decode.
  destruct (is_gzip hs) eqn:Hg.
  - destruct (gunzipSync rt buffer) as [d |] eqn:Hz.
    + rewrite (handleResponse_gzip_ok _ _ d) by done.
      unfold parsed; cbn. repeat split; [ by intros v -> | by intros -> ].
    + rewrite handleResponse_gzip_fail by done.
      unfold parsed; cbn. repeat split; [ by intros v -> | by intros -> ].
  - rewrite handleResponse_plain by done.
    unfold parsed; cbn. repeat split; [ by intros v -> | by intros -> ].
Qed.

(** C3 at a JSON-RPC result without [content-encoding]. *)
Lemma handleResponse_json_witness :
  exists r,
    handleResponse Ref.node
      (Buffer_from (JSON_stringify (JObject [ ("result", JString "0x1") ])))
      [ ("content-type", HStr "application/json") ] Ref.world0
    = (Normal r,
       after_decode Ref.node
         (Buffer_from (JSON_stringify (JObject [ ("result", JString "0x1") ])))
         [ ("content-type", HStr "application/json") ] Ref.world0)
    /\ text r
       = toString_utf8 Ref.node
           (decoded Ref.node
              (Buffer_from (JSON_stringify (JObject [ ("result", JString "0x1") ])))
              [ ("content-type", HStr "application/json") ])
    /\ (forall v, JSON_parse Ref.node (text r) = Some v -> json r = v)
    /\ (JSON_parse Ref.node (text r) = None -> json r = JNull).
Proof.
  exact (handleResponse_json Ref.node
           (Buffer_from (JSON_stringify (JObject [ ("result", JString "0x1") ])))
           [ ("content-type", HStr "application/json") ] Ref.world0 eq_refl).
Defined.


(** ** The write and end overrides *)

Lemma falsy_chunk_empty (c : Chunk) : chunk_truthy c = false -> chunk_bytes c = [].
Proof.
  destruct c as [| b | s]; cbn; try done.
  destruct s; [ done | by cbn ].
Qed.

(** Skipped chunks carry no bytes: the captured bytes are all the bytes. *)
Lemma concat_captured (cs : list Chunk) :
  concat (captured cs) = concat (map chunk_bytes cs).
Proof.
  unfold captured. induction cs as [| c cs IH]; [ done | ].
  cbn. destruct (chunk_truthy c) eqn:Hc; cbn.
  - by rewrite IH.
  - by rewrite IH, (falsy_chunk_empty c Hc).
Qed.

Lemma captured_app (cs1 cs2 : list Chunk) :
  captured (cs1 ++ cs2) = captured cs1 ++ captured cs2.
Proof. unfold captured. by rewrite List.filter_app, map_app. Qed.

Lemma delivered_writes (cs : list Chunk) (last : Chunk) :
  delivered (map SWrite cs ++ [ SEnd last ]) = concat (map chunk_bytes (cs ++ [ last ])).
Proof.
  unfold delivered. rewrite !map_app, map_map. reflexivity.
Qed.

Lemma chunks_pushed (c : Chunk) (w : World) :
  chunks (pushed c w) = chunks w ++ captured [ c ].
Proof.
  unfold pushed, captured. cbn. destruct (chunk_truthy c); cbn; [ done | ].
  by rewrite app_nil_r.
Qed.

Lemma res_write_run (c : Chunk) (w : World) :
  res_write c w = (Normal true, sent (SWrite c) (pushed c w)).
Proof.
  unfold res_write, capture, pushed, originalWrite, sent.
  destruct (chunk_truthy c); reflexivity.
Qed.

Lemma res_writes_run (cs : list Chunk) (w : World) :
  res_writes cs w = (Normal tt, after_writes cs w).
Proof.
  unfold after_writes. revert w.
  induction cs as [| c cs IH]; intros w; [ done | ].
  cbn [res_writes fold_left]. rewrite run_bind, res_write_run. apply IH.
Qed.

Lemma original_writes_run (cs : list Chunk) (w : World) :
  original_writes cs w = (Normal tt, after_original_writes cs w).
Proof.
  unfold after_original_writes. revert w.
  induction cs as [| c cs IH]; intros w; [ done | ].
  cbn [original_writes fold_left]. rewrite run_bind.
  unfold originalWrite at 1. rewrite run_bind. unfold modify at 1.
  rewrite run_ret. apply IH.
Qed.

(** What a sequence of patched writes changes: [chunks] and the wire. *)
Lemma after_writes_spec (cs : list Chunk) (w : World) :
  chunks (after_writes cs w) = chunks w ++ captured cs
  /\ wire (res (after_writes cs w)) = wire (res w) ++ map SWrite cs
  /\ statusCode (res (after_writes cs w)) = statusCode (res w)
  /\ resHeaders (res (after_writes cs w)) = resHeaders (res w)
  /\ console (after_writes cs w) = console w
  /\ files (after_writes cs w) = files w
  /\ log_dir_present (after_writes cs w) = log_dir_present w
  /\ dates_read (after_writes cs w) = dates_read w
  /\ uuids_drawn (after_writes cs w) = uuids_drawn w.
Proof.
  unfold after_writes. revert w.
  induction cs as [| c cs IH]; intros w.
  - cbn. by rewrite !app_nil_r.
  - cbn [fold_left].
    destruct (IH (sent (SWrite c) (pushed c w))) as (H1 & H2 & H3 & H4 & H5 & H6 & H7 & H8 & H9).
    rewrite H1, H2, H3, H4, H5, H6, H7, H8, H9.
    change (c :: cs) with ([ c ] ++ cs). rewrite captured_app.
    cbn [sent set_res chunks res wire statusCode resHeaders console files
         log_dir_present dates_read uuids_drawn].
    rewrite chunks_pushed.
    unfold pushed; destruct (chunk_truthy c); cbn; by rewrite <- !app_assoc.
Qed.

(** The unpatched writes leave the same response behind. *)
Lemma after_writes_res (cs : list Chunk) (w : World) :
  res (after_writes cs w) = res (after_original_writes cs w).
Proof.
  unfold after_writes, after_original_writes. revert w.
  induction cs as [| c cs IH]; intros w; [ done | ].
  cbn [fold_left]. rewrite IH.
  assert (Hres : forall cs' w1 w2, res w1 = res w2 ->
            res (fold_left (fun w c => sent (SWrite c) w) cs' w1)
            = res (fold_left (fun w c => sent (SWrite c) w) cs' w2)).
  { clear. induction cs' as [| c' cs' IH']; intros w1 w2 H; [ done | ].
    cbn [fold_left]. apply IH'. unfold sent, set_res; cbn. by rewrite H. }
  apply Hres. unfold sent, pushed, set_res. destruct (chunk_truthy c); reflexivity.
Qed.

Section EndOverride.

Variable rt : Runtime.

Lemma set_console_nil (w : World) : set_console (fun c => c ++ []) w = w.
Proof. destruct w; unfold set_console; cbn. by rewrite app_nil_r. Qed.

(** [handleResponse] as a function: its result and its console lines do not
    depend on the world. *)
Lemma handleResponse_run (buffer : Buffer) (hs : Headers) (w : World) :
  handleResponse rt buffer hs w =
  (Normal (response_of rt buffer hs),
   set_console (fun c => c ++ diagnostics rt buffer hs) w).
Proof.
  unfold response_of, diagnostics, decoded.
  destruct (encoding_readable hs) eqn:Hr.
  - destruct (is_gzip hs) eqn:Hg.
    + destruct (gunzipSync rt buffer) as [d |] eqn:Hz.
      * by rewrite (handleResponse_gzip_ok _ _ d), set_console_nil.
      * by rewrite handleResponse_gzip_fail.
    + by rewrite handleResponse_plain, set_console_nil.
  - by rewrite handleResponse_unreadable.
Qed.

Lemma diagnostics_stderr (buffer : Buffer) (hs : Headers) :
  blocks (diagnostics rt buffer hs) = [].
Proof.
  unfold diagnostics.
  destruct (encoding_readable hs), (is_gzip hs), (gunzipSync rt buffer); reflexivity.
Qed.

Lemma capture_run (c : Chunk) (w : World) : capture c w = (Normal tt, pushed c w).
Proof. unfold capture, pushed. by destruct (chunk_truthy c). Qed.

Lemma end_prepare_run (cl : Closure) (chunk : Chunk) (w : World) :
  end_prepare rt cl chunk w =
  (Normal (processed_at rt chunk w, logEntry_at rt cl chunk w), prepared_world rt chunk w).
Proof.
  unfold end_prepare.
  rewrite run_bind, capture_run.
  rewrite run_bind. unfold gets at 1.
  rewrite run_bind. unfold newDate at 1.
  rewrite run_bind. unfold gets at 1.
  rewrite run_bind, handleResponse_run.
  rewrite run_bind. unfold newDate at 1.
  rewrite run_bind. unfold gets at 1.
  rewrite run_ret.
  unfold logEntry_at, prepared_world, processed_at, responseBuffer_at, pushed.
  destruct (chunk_truthy chunk); reflexivity.
Qed.

Lemma createLogFilename_run (w : World) :
  createLogFilename rt w =
  (Normal (log_name rt (clock rt (dates_read w)) (uuidv4 rt (uuids_drawn w))),
   set_uuids_drawn S (set_dates_read S w)).
Proof. reflexivity. Qed.

Lemma prepared_world_dir (chunk : Chunk) (w : World) :
  log_dir_present (set_uuids_drawn S (set_dates_read S (prepared_world rt chunk w)))
  = log_dir_present w.
Proof. unfold prepared_world, pushed. by destruct (chunk_truthy chunk). Qed.

Lemma end_emit_ok (cl : Closure) (chunk : Chunk) (w : World) :
  log_dir_present w = true ->
  end_emit rt cl (processed_at rt chunk w) (logEntry_at rt cl chunk w)
    (prepared_world rt chunk w)
  = (Normal tt,
     set_console (fun c => c ++ [ block_at rt cl chunk w ])
       (set_dates_read S
          (set_files
             (insert (logFilename_at rt w)
                (JSON_stringify2 (logEntry_json (logEntry_at rt cl chunk w))))
             (set_uuids_drawn S (set_dates_read S (prepared_world rt chunk w)))))).
Proof.
  intros Hd. unfold end_emit.
  rewrite run_bind, createLogFilename_run.
  rewrite run_bind. unfold writeFileSync at 1.
  rewrite prepared_world_dir, Hd.
  rewrite run_bind. unfold gets at 1.
  rewrite run_bind. unfold newDate at 1.
  unfold console_log, modify, block_at, logFilename_at, prepared_world,
    processed_at, responseBuffer_at, pushed.
  destruct (chunk_truthy chunk); reflexivity.
Qed.

Lemma end_emit_fail (cl : Closure) (chunk : Chunk) (w : World) :
  log_dir_present w = false ->
  end_emit rt cl (processed_at rt chunk w) (logEntry_at rt cl chunk w)
    (prepared_world rt chunk w)
  = (Throw (ENOENT (logFilename_at rt w)), failed_world rt chunk w).
Proof.
  intros Hd. unfold end_emit.
  rewrite run_bind, createLogFilename_run.
  rewrite run_bind. unfold writeFileSync at 1.
  rewrite prepared_world_dir, Hd.
  unfold failed_world, logFilename_at, prepared_world, pushed.
  destruct (chunk_truthy chunk); reflexivity.
Qed.

(** With the log directory in place the override logs, then ends the
    response. *)
Lemma res_end_ok (cl : Closure) (chunk : Chunk) (w : World) :
  log_dir_present w = true ->
  res_end rt cl chunk w = (Normal tt, ended_world rt cl chunk w).
Proof.
  intros Hd. unfold res_end.
  rewrite run_bind, end_prepare_run. cbn [fst snd].
  rewrite run_bind, (end_emit_ok _ _ _ Hd). reflexivity.
Qed.

(** Without it [writeFileSync] throws and the original [end] is not reached. *)
Lemma res_end_fail (cl : Closure) (chunk : Chunk) (w : World) :
  log_dir_present w = false ->
  res_end rt cl chunk w = (Throw (ENOENT (logFilename_at rt w)), failed_world rt chunk w).
Proof.
  intros Hd. unfold res_end.
  rewrite run_bind, end_prepare_run. cbn [fst snd].
  rewrite run_bind, (end_emit_fail _ _ _ Hd). reflexivity.
Qed.

Lemma pushed_frame (c : Chunk) (w : World) :
  res (pushed c w) = res w
  /\ console (pushed c w) = console w
  /\ files (pushed c w) = files w
  /\ log_dir_present (pushed c w) = log_dir_present w
  /\ dates_read (pushed c w) = dates_read w
  /\ uuids_drawn (pushed c w) = uuids_drawn w.
Proof. unfold pushed. by destruct (chunk_truthy c). Qed.

Lemma ended_world_spec (cl : Closure) (chunk : Chunk) (w : World) :
  res (ended_world rt cl chunk w) = res (sent (SEnd chunk) w)
  /\ chunks (ended_world rt cl chunk w) = chunks w ++ captured [ chunk ]
  /\ console (ended_world rt cl chunk w)
     = console w
       ++ diagnostics rt (responseBuffer_at chunk w) (resHeaders (res w))
       ++ [ block_at rt cl chunk w ]
  /\ files (ended_world rt cl chunk w)
     = <[ logFilename_at rt w :=
            JSON_stringify2 (logEntry_json (logEntry_at rt cl chunk w)) ]> (files w).
Proof.
  rewrite <- (chunks_pushed chunk w).
  destruct (pushed_frame chunk w) as (Hr & Hc & Hf & _).
  unfold ended_world, prepared_world. world_simpl.
  rewrite Hr, Hc, Hf, <- app_assoc. repeat split; reflexivity.
Qed.

Lemma failed_world_spec (chunk : Chunk) (w : World) :
  res (failed_world rt chunk w) = res w
  /\ chunks (failed_world rt chunk w) = chunks w ++ captured [ chunk ]
  /\ files (failed_world rt chunk w) = files w
  /\ blocks (console (failed_world rt chunk w)) = blocks (console w).
Proof.
  rewrite <- (chunks_pushed chunk w).
  destruct (pushed_frame chunk w) as (Hr & Hc & Hf & _).
  unfold failed_world, prepared_world. world_simpl.
  rewrite Hr, Hc, Hf.
  unfold blocks. rewrite List.filter_app.
  fold (blocks (diagnostics rt (responseBuffer_at chunk w) (resHeaders (res w)))).
  rewrite diagnostics_stderr, app_nil_r. repeat split; reflexivity.
Qed.

End EndOverride.

(** ** A whole response *)

Section Respond.

Variable rt : Runtime.

Lemma respond_run_ok (cl : Closure) (cs : list Chunk) (last : Chunk) (w : World) :
  log_dir_present w = true ->
  respond rt cl cs last w = (Normal tt, ended_world rt cl last (after_writes cs w)).
Proof.
  intros Hd. unfold respond. rewrite run_bind, res_writes_run.
  apply res_end_ok.
  destruct (after_writes_spec cs w) as (_ & _ & _ & _ & _ & _ & H & _). by rewrite H.
Qed.

Lemma respond_run_fail (cl : Closure) (cs : list Chunk) (last : Chunk) (w : World) :
  log_dir_present w = false ->
  respond rt cl cs last w =
  (Throw (ENOENT (logFilename_at rt (after_writes cs w))),
   failed_world rt last (after_writes cs w)).
Proof.
  intros Hd. unfold respond. rewrite run_bind, res_writes_run.
  apply res_end_fail.
  destruct (after_writes_spec cs w) as (_ & _ & _ & _ & _ & _ & H & _). by rewrite H.
Qed.

Lemma respond_unwrapped_run (cs : list Chunk) (last : Chunk) (w : World) :
  respond_unwrapped cs last w = (Normal tt, sent (SEnd last) (after_original_writes cs w)).
Proof.
  unfold respond_unwrapped. rewrite run_bind, original_writes_run. reflexivity.
Qed.

(** With the log directory in place the patched response is transparent: it
    returns, the underlying response saw the same calls as without the
    patch, and the buffer gained exactly the bytes sent. *)
Lemma respond_transparent (cl : Closure) (cs : list Chunk) (last : Chunk) (w : World) :
  log_dir_present w = true ->
  exists w',
    respond rt cl cs last w = (Normal tt, w')
    /\ res w' = res (snd (respond_unwrapped cs last w))
    /\ wire (res w') = wire (res w) ++ map SWrite cs ++ [ SEnd last ]
    /\ Buffer_concat (chunks w')
       = Buffer_concat (chunks w) ++ delivered (map SWrite cs ++ [ SEnd last ]).
Proof.
  intros Hd. eexists. split; [ by apply respond_run_ok | ].
  destruct (ended_world_spec rt cl last (after_writes cs w)) as (Hr & Hc & _).
  destruct (after_writes_spec cs w) as (Hc' & Hw & _).
  rewrite respond_unwrapped_run. cbn [snd].
  rewrite Hr, Hc, Hc'. repeat split.
  - unfold sent, set_res. cbn [res]. by rewrite after_writes_res.
  - unfold sent, set_res. cbn [res wire]. by rewrite Hw, <- app_assoc.
  - unfold Buffer_concat. rewrite <- app_assoc, <- captured_app, concat_app.
    by rewrite concat_captured, delivered_writes.
Qed.

End Respond.

(** C4 at a failing input.  The log directory is gone; the response is
    written as [write("ab")], [end("cd")].  The buffer holds [abcd], but
    [res.end] throws before the original [end] is called: the underlying
    response saw [write("ab")] alone, where the unpatched one sees both
    calls. *)
Theorem respond_truncated_when_log_fails :
  fst (cycle Ref.node Ref.rq [ ChunkStr "ab" ] (ChunkStr "cd") Ref.world_nodir)
  = Throw (ENOENT "/app/logs/logs-2023-11-14T22-13-20-015Z-1b4e28ba.log")
  /\ Buffer_concat
       (chunks (snd (cycle Ref.node Ref.rq [ ChunkStr "ab" ] (ChunkStr "cd")
                       Ref.world_nodir)))
     = Buffer_from "abcd"
  /\ wire (res (snd (cycle Ref.node Ref.rq [ ChunkStr "ab" ] (ChunkStr "cd")
                       Ref.world_nodir)))
     = [ SWrite (ChunkStr "ab") ]
  /\ wire (res (snd (respond_unwrapped [ ChunkStr "ab" ] (ChunkStr "cd")
                       Ref.world_nodir)))
     = [ SWrite (ChunkStr "ab"); SEnd (ChunkStr "cd") ].
Proof.
  unfold cycle. rewrite run_bind. unfold middleware at 1.
  rewrite run_bind. unfold newDate at 1. rewrite run_bind. unfold modify at 1.
  rewrite run_ret, respond_run_fail by reflexivity.
  rewrite respond_unwrapped_run. cbn [fst snd].
  repeat split; vm_compute; reflexivity.
Qed.

(** C5 at its failing inputs.  When the log directory is missing,
    [res.end] throws the error of [writeFileSync] to its caller and leaves
    the underlying response as it was: the original [end] is never called,
    so the final chunk is not sent and the response is not ended. *)
Theorem res_end_throws_before_original_end (rt : Runtime) (cl : Closure)
    (chunk : Chunk) (w : World) :
  log_dir_present w = false ->
  exists file w',
    res_end rt cl chunk w = (Throw (ENOENT file), w')
    /\ res w' = res w.
Proof.
  intros Hd. eexists _, _. split; [ by apply res_end_fail | ].
  by destruct (failed_world_spec rt chunk w) as (H & _).
Qed.

(** C5's failing input: [res.end("x")] without a log directory. *)
Lemma res_end_throws_witness :
  exists file w',
    res_end Ref.node Ref.closure0 (ChunkStr "x") Ref.world_nodir
    = (Throw (ENOENT file), w')
    /\ res w' = res Ref.world_nodir.
Proof.
  exact (res_end_throws_before_original_end Ref.node Ref.closure0 (ChunkStr "x")
           Ref.world_nodir eq_refl).
Defined.

(** X16. A response that goes through the patched [write] and [end] and
    completes (its writes and its [end] return) has put
    exactly one file into the log directory, the pretty-printed log entry
    under the name drawn for it, and exactly one block on the console, and
    both only in [end]: after the writes alone the files and the console
    are as before.  This holds whatever the chunks, headers and bytes are. *)
Theorem one_log_entry_per_cycle (rt : Runtime) (cl : Closure) (cs : list Chunk)
    (last : Chunk) (w w' : World) :
  respond rt cl cs last w = (Normal tt, w') ->
  res_writes cs w = (Normal tt, after_writes cs w)
  /\ files (after_writes cs w) = files w
  /\ console (after_writes cs w) = console w
  /\ files w'
     = <[ logFilename_at rt (after_writes cs w) :=
            JSON_stringify2
              (logEntry_json (logEntry_at rt cl last (after_writes cs w))) ]> (files w)
  /\ blocks (console w')
     = blocks (console w) ++ [ block_at rt cl last (after_writes cs w) ].
Proof.
  intros Hrun.
  destruct (after_writes_spec cs w) as (_ & _ & _ & _ & Hc & Hf & _).
  split; [ apply res_writes_run | ]. do 2 (split; [ done | ]).
  destruct (log_dir_present w) eqn:Hd.
  - rewrite respond_run_ok in Hrun by done.
    injection Hrun as <-.
    destruct (ended_world_spec rt cl last (after_writes cs w)) as (_ & _ & Hc' & Hf').
    rewrite Hf', Hc', Hf, Hc. split; [ reflexivity | ].
    unfold blocks. rewrite !List.filter_app.
    fold (blocks (diagnostics rt (responseBuffer_at last (after_writes cs w))
                    (resHeaders (res (after_writes cs w))))).
    rewrite diagnostics_stderr. reflexivity.
  - rewrite respond_run_fail in Hrun by done. discriminate Hrun.
Qed.

(** X16 at a gzip response delivered in two chunks. *)
Lemma one_log_entry_per_cycle_witness :
  res_writes [ ChunkBuf (take 10 Ref.gz_hi) ] Ref.world_gzip
  = (Normal tt, after_writes [ ChunkBuf (take 10 Ref.gz_hi) ] Ref.world_gzip)
  /\ files (after_writes [ ChunkBuf (take 10 Ref.gz_hi) ] Ref.world_gzip)
     = files Ref.world_gzip
  /\ console (after_writes [ ChunkBuf (take 10 Ref.gz_hi) ] Ref.world_gzip)
     = console Ref.world_gzip
  /\ files (ended_world Ref.node Ref.closure0 (ChunkBuf (drop 10 Ref.gz_hi))
              (after_writes [ ChunkBuf (take 10 Ref.gz_hi) ] Ref.world_gzip))
     = <[ logFilename_at Ref.node
            (after_writes [ ChunkBuf (take 10 Ref.gz_hi) ] Ref.world_gzip) :=
            JSON_stringify2
              (logEntry_json
                 (logEntry_at Ref.node Ref.closure0 (ChunkBuf (drop 10 Ref.gz_hi))
                    (after_writes [ ChunkBuf (take 10 Ref.gz_hi) ] Ref.world_gzip))) ]>
         (files Ref.world_gzip)
  /\ blocks
       (console
          (ended_world Ref.node Ref.closure0 (ChunkBuf (drop 10 Ref.gz_hi))
             (after_writes [ ChunkBuf (take 10 Ref.gz_hi) ] Ref.world_gzip)))
     = blocks (console Ref.world_gzip)
       ++ [ block_at Ref.node Ref.closure0 (ChunkBuf (drop 10 Ref.gz_hi))
              (after_writes [ ChunkBuf (take 10 Ref.gz_hi) ] Ref.world_gzip) ].
Proof.
  apply (one_log_entry_per_cycle Ref.node Ref.closure0
           [ ChunkBuf (take 10 Ref.gz_hi) ] (ChunkBuf (drop 10 Ref.gz_hi))
           Ref.world_gzip).
  vm_compute. reflexivity.
Defined.

(** The entry's body and the console text take the parsed value only when it
    is truthy. *)
Lemma response_body_truthy_json (rt : Runtime) (cl : Closure) (chunk : Chunk) (w : World) :
  response_body (logEntry_at rt cl chunk w)
  = (if truthy (json (processed_at rt chunk w))
     then json (processed_at rt chunk w)
     else JString (text (processed_at rt chunk w)))
  /\ outputText (processed_at rt chunk w)
     = (if truthy (json (processed_at rt chunk w))
        then JSON_stringify2 (json (processed_at rt chunk w))
        else text (processed_at rt chunk w)).
Proof. split; reflexivity. Qed.

(** C7 at a failing input.  The upstream body is the JSON text [false].
    [handleResponse] parses it, but the log entry's body is the string
    ["false"], not the parsed value, and the console shows the text. *)
Theorem falsy_json_logged_as_text :
  exists e w',
    end_prepare Ref.node Ref.closure0 (ChunkStr "false") Ref.world1
    = (Normal ({| text := "false"; json := JBool false |}, e), w')
    /\ response_body e = JString "false"
    /\ response_body e <> JBool false
    /\ outputText {| text := "false"; json := JBool false |} = "false".
Proof.
  exists (logEntry_at Ref.node Ref.closure0 (ChunkStr "false") Ref.world1),
         (prepared_world Ref.node (ChunkStr "false") Ref.world1).
  rewrite end_prepare_run.
  assert (Hb : response_body (logEntry_at Ref.node Ref.closure0 (ChunkStr "false")
                                Ref.world1) = JString "false")
    by (vm_compute; reflexivity).
  rewrite Hb. split; [ | split; [ reflexivity | split; [ discriminate | reflexivity ] ] ].
  vm_compute. reflexivity.
Qed.

(** ** Timestamps and duration *)

Lemma clock_monotone (rt : Runtime) (i j : nat) :
  (forall n, (clock rt n <= clock rt (S n))%Z) -> i <= j ->
  (clock rt i <= clock rt j)%Z.
Proof.
  intros Hm Hij. induction Hij as [| j _ IH]; [ lia | ].
  specialize (Hm j). lia.
Qed.

Lemma middleware_run (rt : Runtime) (rq : Request) (w : World) :
  middleware rt rq w =
  (Normal {| req := rq; requestStartTime := clock rt (dates_read w);
             requestTime := toISOString rt (clock rt (dates_read w));
             requestBody := body rq |},
   set_chunks (fun _ => []) (set_dates_read S w)).
Proof. reflexivity. Qed.




(** ** Log file names *)

Lemma length_append (s1 s2 : string) :
  String.length (s1 +:+ s2) = String.length s1 + String.length s2.
Proof.
  induction s1 as [| c s1 IH]; [ done | ].
  change (S (String.length (s1 +:+ s2)) = S (String.length s1 + String.length s2)).
  by rewrite IH.
Qed.

(** Two concatenations with tails of the same length agree part by part. *)
Lemma append_inj_tail (a b x y : string) :
  String.length x = String.length y -> a +:+ x = b +:+ y -> a = b /\ x = y.
Proof.
  revert b. induction a as [| c a IH]; intros [| d b] Hl H.
  - done.
  - apply (f_equal String.length) in H. rewrite !length_append in H.
    cbn [String.length] in H. lia.
  - apply (f_equal String.length) in H. rewrite !length_append in H.
    cbn [String.length] in H. lia.
  - change (String c (a +:+ x) = String d (b +:+ y)) in H.
    injection H as -> H. destruct (IH b Hl H) as [-> ->]. done.
Qed.

Lemma length_substring_0 (n : nat) (s : string) :
  n <= String.length s -> String.length (substring 0 n s) = n.
Proof.
  revert s. induction n as [| n IH]; intros s Hn.
  - by destruct s.
  - destruct s as [| c s]; cbn [String.length] in Hn; [ lia | ].
    change (S (String.length (substring 0 n s)) = S n).
    rewrite IH by lia. done.
Qed.

Lemma replace_colon_dot_clean (s : string) :
  has_colon_dot (replace_colon_dot s) = false.
Proof.
  induction s as [| c s IH]; [ done | ].
  cbn. destruct (Ascii.eqb c ":") eqn:H1; [ by cbn | ].
  destruct (Ascii.eqb c ".") eqn:H2; [ by cbn | ].
  cbn. by rewrite H1, H2, IH.
Qed.

Lemma replace_colon_dot_length (s : string) :
  String.length (replace_colon_dot s) = String.length s.
Proof.
  induction s as [| c s IH]; [ done | ].
  change (S (String.length (replace_colon_dot s)) = S (String.length s)).
  by rewrite IH.
Qed.

Lemma createLogFilename_name (rt : Runtime) (w : World) :
  fst (createLogFilename rt w)
  = Normal (LOG_DIR rt +:+ "/logs-" +:+ stamp_at rt w +:+ "-" +:+ suffix_at rt w
            +:+ ".log").
Proof. reflexivity. Qed.

(** X17. The name drawn in a world is
    [LOG_DIR/logs-<stamp>-<suffix>.log]: the stamp is the ISO timestamp of
    the clock reading with every colon and dot replaced by a dash, the
    suffix is the first eight characters of the uuid drawn.  Two names are
    equal exactly when both their stamps and their suffixes are equal; so
    two requests that read the same millisecond get distinct names exactly
    when the first eight characters of their uuids differ. *)
Theorem log_names_equal_iff (rt : Runtime) (w1 w2 : World) :
  String.length (uuidv4 rt (uuids_drawn w1)) = 36 ->
  String.length (uuidv4 rt (uuids_drawn w2)) = 36 ->
  fst (createLogFilename rt w1)
  = Normal (LOG_DIR rt +:+ "/logs-" +:+ stamp_at rt w1 +:+ "-" +:+ suffix_at rt w1
            +:+ ".log")
  /\ has_colon_dot (stamp_at rt w1) = false
  /\ String.length (stamp_at rt w1)
     = String.length (toISOString rt (clock rt (dates_read w1)))
  /\ String.length (suffix_at rt w1) = 8
  /\ (fst (createLogFilename rt w1) = fst (createLogFilename rt w2) <->
      stamp_at rt w1 = stamp_at rt w2 /\ suffix_at rt w1 = suffix_at rt w2)
  /\ (clock rt (dates_read w1) = clock rt (dates_read w2) ->
      (fst (createLogFilename rt w1) <> fst (createLogFilename rt w2) <->
       suffix_at rt w1 <> suffix_at rt w2)).
Proof.
  intros Hu1 Hu2.
  assert (Hl1 : String.length (suffix_at rt w1) = 8)
    by (apply length_substring_0; lia).
  assert (Hl2 : String.length (suffix_at rt w2) = 8)
    by (apply length_substring_0; lia).
  assert (Hiff : fst (createLogFilename rt w1) = fst (createLogFilename rt w2) <->
                 stamp_at rt w1 = stamp_at rt w2 /\ suffix_at rt w1 = suffix_at rt w2).
  { rewrite !createLogFilename_name. split.
    - intros H. injection H as H.
      apply (String.app_inj (LOG_DIR rt)) in H.
      apply (String.app_inj "/logs-") in H.
      apply append_inj_tail in H as [Hs H].
      + split; [ done | ].
        apply (String.app_inj "-") in H.
        apply append_inj_tail in H as [H _]; done.
      + cbn. rewrite !length_append, Hl1, Hl2. done.
    - by intros [-> ->]. }
  split; [ apply createLogFilename_name | ].
  split; [ apply replace_colon_dot_clean | ].
  split; [ apply replace_colon_dot_length | ].
  split; [ done | ]. split; [ done | ].
  intros Ht. rewrite Hiff. unfold stamp_at. rewrite Ht. tauto.
Qed.

(** X17 at two worlds of the sample runtime. *)
Lemma log_names_equal_iff_witness :
  fst (createLogFilename Ref.node Ref.world0)
  = Normal (LOG_DIR Ref.node +:+ "/logs-" +:+ stamp_at Ref.node Ref.world0 +:+ "-"
            +:+ suffix_at Ref.node Ref.world0 +:+ ".log")
  /\ has_colon_dot (stamp_at Ref.node Ref.world0) = false
  /\ String.length (stamp_at Ref.node Ref.world0)
     = String.length (toISOString Ref.node (clock Ref.node (dates_read Ref.world0)))
  /\ String.length (suffix_at Ref.node Ref.world0) = 8
  /\ (fst (createLogFilename Ref.node Ref.world0)
      = fst (createLogFilename Ref.node Ref.world1) <->
      stamp_at Ref.node Ref.world0 = stamp_at Ref.node Ref.world1
      /\ suffix_at Ref.node Ref.world0 = suffix_at Ref.node Ref.world1)
  /\ (clock Ref.node (dates_read Ref.world0) = clock Ref.node (dates_read Ref.world1) ->
      (fst (createLogFilename Ref.node Ref.world0)
       <> fst (createLogFilename Ref.node Ref.world1) <->
       suffix_at Ref.node Ref.world0 <> suffix_at Ref.node Ref.world1)).
Proof.
  apply (log_names_equal_iff Ref.node Ref.world0 Ref.world1); reflexivity.
Defined.

(** C9 at a failing input.  Two requests complete within the same millisecond
    and draw different uuids that share their first eight characters: both
    get the same file name, and the log of the second replaces the log of
    the first. *)
Lemma log_names_collide :
  Ref.uuid_a <> Ref.uuid_b
  /\ (exists name w1 w2,
        createLogFilename Ref.node_frozen Ref.world0 = (Normal name, w1)
        /\ createLogFilename Ref.node_frozen w1 = (Normal name, w2)
        /\ uuidv4 Ref.node_frozen (uuids_drawn Ref.world0) = Ref.uuid_a
        /\ uuidv4 Ref.node_frozen (uuids_drawn w1) = Ref.uuid_b
        /\ name = "/app/logs/logs-2023-11-14T22-13-20-000Z-1b4e28ba.log")
  /\ (exists w1 w2,
        cycle Ref.node_frozen Ref.rq [] (ChunkStr "first") Ref.world0 = (Normal tt, w1)
        /\ cycle Ref.node_frozen Ref.rq [] (ChunkStr "second") w1 = (Normal tt, w2)
        /\ size (files w2) = 1).
Proof.
  split; [ discriminate | ]. split.
  - exists "/app/logs/logs-2023-11-14T22-13-20-000Z-1b4e28ba.log",
           (snd (createLogFilename Ref.node_frozen Ref.world0)),
           (snd (createLogFilename Ref.node_frozen
                   (snd (createLogFilename Ref.node_frozen Ref.world0)))).
    split; [ vm_compute; reflexivity | ].
    split; [ vm_compute; reflexivity | ].
    split; [ vm_compute; reflexivity | ].
    split; [ vm_compute; reflexivity | reflexivity ].
  - exists (snd (cycle Ref.node_frozen Ref.rq [] (ChunkStr "first") Ref.world0)),
           (snd (cycle Ref.node_frozen Ref.rq [] (ChunkStr "second")
                   (snd (cycle Ref.node_frozen Ref.rq [] (ChunkStr "first")
                           Ref.world0)))).
    split; [ vm_compute; reflexivity | ].
    split; [ vm_compute; reflexivity | ].
    vm_compute. reflexivity.
Qed.

(** ** The error hook *)

Section OnError.

Variable rt : Runtime.

Lemma JSON_stringify_error_body (rq : Request) :
  JSON_stringify (error_body rq)
  = proxy_error_text (JSON_stringify (js_or (opt_prop (body rq) "id") JNull)).
Proof. reflexivity. Qed.

(** Headers already sent: the hook logs the error and emits nothing. *)
Lemma onError_headers_sent (err : JSError) (cl : Closure) (w : World) :
  headersSent (res w) = true ->
  onError rt err cl w = (Normal tt, warned "Proxy error:" err w).
Proof.
  intros Hs. unfold onError.
  rewrite run_bind. unfold console_error at 1, modify at 1.
  rewrite run_bind. unfold gets at 1.
  change (headersSent (res (set_console _ w))) with (headersSent (res w)).
  rewrite Hs. reflexivity.
Qed.

(** Headers not sent and the log directory in place: status 500 and the
    error object, whose id is the request's id when that is truthy and
    [null] otherwise. *)
Lemma onError_emits (err : JSError) (cl : Closure) (w : World) :
  headersSent (res w) = false ->
  log_dir_present w = true ->
  exists w',
    onError rt err cl w = (Normal tt, w')
    /\ statusCode (res w') = 500%Z
    /\ wire (res w')
       = wire (res w)
         ++ [ SEnd (ChunkStr
                (proxy_error_text
                   (JSON_stringify (js_or (opt_prop (body (req cl)) "id") JNull)))) ].
Proof.
  intros Hs Hd. unfold onError.
  rewrite run_bind. unfold console_error at 1, modify at 1.
  rewrite run_bind. unfold gets at 1.
  change (headersSent (res (set_console _ w))) with (headersSent (res w)).
  rewrite Hs. cbn [negb].
  rewrite run_bind. unfold writeHead at 1, modify at 1.
  rewrite res_end_ok by exact Hd.
  eexists. split; [ reflexivity | ].
  match goal with
  | |- context [ ended_world rt cl ?c ?w2 ] =>
      destruct (ended_world_spec rt cl c w2) as (Hr & _)
  end.
  rewrite Hr, JSON_stringify_error_body. split; reflexivity.
Qed.

End OnError.

(** C10 at a failing input.  The request is the JSON-RPC call
    [{"jsonrpc":"2.0","method":"eth_chainId","id":0}] and forwarding fails
    before any header was sent.  The client gets status 500 and the error
    object, but with [id: null], although the request carried the id 0. *)
Theorem onError_drops_id_zero :
  opt_prop (body (req Ref.closure0)) "id" = Some (JNumber 0)
  /\ fst (onError Ref.node (NetError "ECONNREFUSED") Ref.closure0 Ref.world1)
     = Normal tt
  /\ statusCode
       (res (snd (onError Ref.node (NetError "ECONNREFUSED") Ref.closure0 Ref.world1)))
     = 500%Z
  /\ wire
       (res (snd (onError Ref.node (NetError "ECONNREFUSED") Ref.closure0 Ref.world1)))
     = [ SEnd (ChunkStr (proxy_error_text "null")) ].
Proof.
  split; [ reflexivity | ].
  destruct (onError_emits Ref.node (NetError "ECONNREFUSED") Ref.closure0 Ref.world1
              eq_refl eq_refl) as (w' & Hrun & Hst & Hw).
  rewrite Hrun. cbn [fst snd]. rewrite Hst, Hw.
  repeat split.
Qed.

(** ** Further properties of the interception *)

Lemma after_original_writes_res (cs : list Chunk) (w1 w2 : World) :
  res w1 = res w2 ->
  res (after_original_writes cs w1) = res (after_original_writes cs w2).
Proof.
  unfold after_original_writes. revert w1 w2.
  induction cs as [| c cs IH]; intros w1 w2 H; [ done | ].
  cbn [fold_left]. apply IH. unfold sent, set_res. cbn [res]. by rewrite H.
Qed.

(** X1. With the log directory in place, a whole request (middleware, any
    writes, the final [end]) returns; the underlying response has seen
    exactly the calls it sees without the patch, in the same order; and the
    request's buffer holds exactly the bytes sent to the client. *)
Theorem cycle_transparent (rt : Runtime) (rq : Request) (cs : list Chunk)
    (last : Chunk) (w : World) :
  log_dir_present w = true ->
  exists w',
    cycle rt rq cs last w = (Normal tt, w')
    /\ res w' = res (snd (respond_unwrapped cs last w))
    /\ wire (res w') = wire (res w) ++ map SWrite cs ++ [ SEnd last ]
    /\ Buffer_concat (chunks w') = delivered (map SWrite cs ++ [ SEnd last ]).
Proof.
  intros Hd. unfold cycle. rewrite run_bind, middleware_run.
  set (w1 := set_chunks (fun _ => []) (set_dates_read S w)).
  destruct (respond_transparent rt
              {| req := rq; requestStartTime := clock rt (dates_read w);
                 requestTime := toISOString rt (clock rt (dates_read w));
                 requestBody := body rq |} cs last w1 Hd)
    as (w' & Hrun & Hres & Hwire & Hbuf).
  exists w'. split; [ exact Hrun | ]. split; [ | split ].
  - rewrite Hres, !respond_unwrapped_run. cbn [snd].
    unfold sent, set_res. cbn [res].
    by rewrite (after_original_writes_res cs w1 w).
  - exact Hwire.
  - rewrite Hbuf. reflexivity.
Qed.

(** X1 at a response of two chunks. *)
Lemma cycle_transparent_witness :
  exists w',
    cycle Ref.node Ref.rq [ ChunkStr "ab" ] (ChunkBuf (Buffer_from "cd")) Ref.world0
    = (Normal tt, w')
    /\ res w'
       = res (snd (respond_unwrapped [ ChunkStr "ab" ] (ChunkBuf (Buffer_from "cd"))
                     Ref.world0))
    /\ wire (res w')
       = wire (res Ref.world0) ++ map SWrite [ ChunkStr "ab" ]
         ++ [ SEnd (ChunkBuf (Buffer_from "cd")) ]
    /\ Buffer_concat (chunks w')
       = delivered (map SWrite [ ChunkStr "ab" ] ++ [ SEnd (ChunkBuf (Buffer_from "cd")) ]).
Proof.
  exact (cycle_transparent Ref.node Ref.rq [ ChunkStr "ab" ]
           (ChunkBuf (Buffer_from "cd")) Ref.world0 eq_refl).
Defined.

(** What is decoded at the end of a request: the bytes of its chunks. *)
Lemma processed_at_fresh (rt : Runtime) (cs : list Chunk) (last : Chunk) (w : World) :
  processed_at rt last (after_writes cs (set_chunks (fun _ => []) (set_dates_read S w)))
  = response_of rt (concat (map chunk_bytes (cs ++ [ last ]))) (resHeaders (res w)).
Proof.
  unfold processed_at, responseBuffer_at, Buffer_concat.
  set (w1 := set_chunks (fun _ => []) (set_dates_read S w)).
  destruct (after_writes_spec cs w1) as (Hc & _ & _ & Hh & _).
  rewrite chunks_pushed, Hc, Hh. cbn [chunks set_chunks w1 app].
  rewrite <- captured_app, concat_captured. reflexivity.
Qed.

(** X2. Whatever the world and whether or not the log can be written, the
    bytes [res.end] hands to [handleResponse] are the bytes of all chunks of
    this request, the final one included, in the order they were written;
    nothing an earlier request left in the world is among them, and the
    headers are those of the response. *)
Theorem response_buffer_is_all_chunks (rt : Runtime) (rq : Request) (cs : list Chunk)
    (last : Chunk) (w : World) :
  exists cl w1 e w2,
    middleware rt rq w = (Normal cl, w1)
    /\ res_writes cs w1 = (Normal tt, after_writes cs w1)
    /\ end_prepare rt cl last (after_writes cs w1)
       = (Normal (response_of rt (concat (map chunk_bytes (cs ++ [ last ])))
                    (resHeaders (res w)), e), w2).
Proof.
  eexists _, _, _, _. split; [ apply middleware_run | ].
  split; [ apply res_writes_run | ].
  rewrite end_prepare_run, processed_at_fresh. reflexivity.
Qed.

(** ** Further properties of [handleResponse] *)

(** X3. Only the exact value [gzip] (up to letter case) is decompressed.
    With no [content-encoding] header, or one holding any other string
    ([br], [deflate], a list such as [gzip, br], a padded [ gzip]), the
    bytes are decoded as they are, [gunzipSync] is not consulted, and
    nothing is printed. *)
Theorem handleResponse_other_encoding (rt : Runtime) (buffer : Buffer) (hs : Headers)
    (w : World) :
  (assoc "content-encoding" hs = None
   \/ exists s, assoc "content-encoding" hs = Some (HStr s) /\ toLowerCase s <> "gzip") ->
  handleResponse rt buffer hs w = (Normal (parsed rt (toString_utf8 rt buffer)), w)
  /\ forall rt', toString_utf8 rt' = toString_utf8 rt -> JSON_parse rt' = JSON_parse rt ->
       handleResponse rt' buffer hs w = handleResponse rt buffer hs w.
Proof.
  intros H.
  assert (Hr : encoding_readable hs = true /\ is_gzip hs = false).
  { unfold encoding_readable, is_gzip.
    destruct H as [-> | (s & -> & Hs)]; [ done | ].
    split; [ done | by apply bool_decide_eq_false ]. }
  destruct Hr as [Hr Hg]. split.
  - by apply handleResponse_plain.
  - intros rt' Ht Hp. rewrite !handleResponse_plain by done.
    unfold parsed. by rewrite Ht, Hp.
Qed.

(** X3 at a brotli response. *)
Lemma handleResponse_other_encoding_witness :
  handleResponse Ref.node (Buffer_from "payload") [ ("content-encoding", HStr "br") ]
    Ref.world0
  = (Normal (parsed Ref.node (toString_utf8 Ref.node (Buffer_from "payload"))),
     Ref.world0)
  /\ forall rt', toString_utf8 rt' = toString_utf8 Ref.node ->
       JSON_parse rt' = JSON_parse Ref.node ->
       handleResponse rt' (Buffer_from "payload") [ ("content-encoding", HStr "br") ]
         Ref.world0
       = handleResponse Ref.node (Buffer_from "payload")
           [ ("content-encoding", HStr "br") ] Ref.world0.
Proof.
  apply (handleResponse_other_encoding Ref.node (Buffer_from "payload")
           [ ("content-encoding", HStr "br") ] Ref.world0).
  right. exists "br". split; [ reflexivity | discriminate ].
Defined.

(** X4. Compression is invisible in the result: a buffer that [gunzipSync]
    inflates to [b], handled under a gzip header, gives exactly what [b]
    itself gives under headers that ask for no decompression. *)
Theorem handleResponse_gzip_as_plain (rt : Runtime) (z b : Buffer) (hs hs' : Headers)
    (w : World) :
  is_gzip hs = true ->
  gunzipSync rt z = Some b ->
  encoding_readable hs' = true ->
  is_gzip hs' = false ->
  handleResponse rt z hs w = handleResponse rt b hs' w.
Proof.
  intros Hg Hz Hr' Hg'.
  rewrite (handleResponse_gzip_ok rt z b) by done.
  by rewrite handleResponse_plain.
Qed.

(** X4 at the gzip member of [hi] and the plain bytes [hi]. *)
Lemma handleResponse_gzip_as_plain_witness :
  handleResponse Ref.node Ref.gz_hi [ ("content-encoding", HStr "gzip") ] Ref.world0
  = handleResponse Ref.node (Buffer_from "hi") [] Ref.world0.
Proof.
  apply (handleResponse_gzip_as_plain Ref.node Ref.gz_hi (Buffer_from "hi")
           [ ("content-encoding", HStr "gzip") ] [] Ref.world0).
  - reflexivity.
  - vm_compute. reflexivity.
  - reflexivity.
  - reflexivity.
Defined.

(** X5. A response without a body.  When no bytes were written (no chunk,
    empty strings or empty buffers only) and no gzip is declared, the entry's
    body is the empty string and the console shows an empty body: the empty
    text is not JSON, so [json] stays [null]. *)
Theorem empty_response_logged_as_empty_text (rt : Runtime) (rq : Request)
    (cs : list Chunk) (last : Chunk) (w : World) :
  toString_utf8 rt [] = "" ->
  JSON_parse rt "" = None ->
  Forall (fun c => chunk_bytes c = []) (cs ++ [ last ]) ->
  encoding_readable (resHeaders (res w)) = true ->
  is_gzip (resHeaders (res w)) = false ->
  exists cl w1 e w2,
    middleware rt rq w = (Normal cl, w1)
    /\ end_prepare rt cl last (after_writes cs w1)
       = (Normal ({| text := ""; json := JNull |}, e), w2)
    /\ response_body e = JString ""
    /\ outputText {| text := ""; json := JNull |} = "".
Proof.
  intros Ht Hp Hall Hr Hg.
  assert (Hnil : concat (map chunk_bytes (cs ++ [ last ])) = []).
  { induction Hall as [| c l Hc _ IH]; [ done | ]. cbn. by rewrite Hc, IH. }
  assert (Hpa : processed_at rt last
                  (after_writes cs (set_chunks (fun _ => []) (set_dates_read S w)))
                = {| text := ""; json := JNull |}).
  { rewrite processed_at_fresh.
    unfold response_of, decoded, parsed. by rewrite Hr, Hg, Hnil, Ht, Hp. }
  eexists _, _, _, _. split; [ apply middleware_run | ].
  rewrite end_prepare_run.
  split; [ by rewrite Hpa | ].
  split; [ | reflexivity ].
  cbn [logEntry_at response_body]. by rewrite Hpa.
Qed.

(** X5 at a response ended without any chunk. *)
Lemma empty_response_logged_witness :
  exists cl w1 e w2,
    middleware Ref.node Ref.rq Ref.world0 = (Normal cl, w1)
    /\ end_prepare Ref.node cl ChunkNone (after_writes [ ChunkStr "" ] w1)
       = (Normal ({| text := ""; json := JNull |}, e), w2)
    /\ response_body e = JString ""
    /\ outputText {| text := ""; json := JNull |} = "".
Proof.
  apply (empty_response_logged_as_empty_text Ref.node Ref.rq [ ChunkStr "" ] ChunkNone
           Ref.world0).
  - reflexivity.
  - reflexivity.
  - repeat constructor.
  - reflexivity.
  - reflexivity.
Defined.

(** X6. A body that parses to a JSON object or array (every JSON-RPC
    response does) is logged as that structure, under gzip or not: the
    entry's body is the parsed value and the console shows it pretty-printed
    with two spaces. *)
Theorem structured_response_logged_as_json (rt : Runtime) (cl : Closure)
    (chunk : Chunk) (w : World) (v : JSValue) :
  encoding_readable (resHeaders (res w)) = true ->
  JSON_parse rt
    (toString_utf8 rt (decoded rt (responseBuffer_at chunk w) (resHeaders (res w))))
  = Some v ->
  (exists props, v = JObject props) \/ (exists xs, v = JArray xs) ->
  exists pr e w',
    end_prepare rt cl chunk w = (Normal (pr, e), w')
    /\ json pr = v
    /\ response_body e = v
    /\ outputText pr = JSON_stringify2 v.
Proof.
  intros Hr Hp Hv.
  assert (Hj : json (processed_at rt chunk w) = v).
  { unfold processed_at, response_of, parsed. rewrite Hr. cbn [json]. by rewrite Hp. }
  assert (Ht : truthy v = true) by (by destruct Hv as [(? & ->) | (? & ->)]).
  eexists _, _, _. split; [ apply end_prepare_run | ].
  split; [ exact Hj | ]. split.
  - cbn [logEntry_at response_body]. rewrite Hj. unfold js_or. by rewrite Ht.
  - unfold outputText. by rewrite Hj, Ht.
Qed.

(** X6 at a JSON-RPC result. *)
Lemma structured_response_logged_witness :
  exists pr e w',
    end_prepare Ref.node Ref.closure0
      (ChunkStr (JSON_stringify (JObject [ ("result", JString "0x1") ]))) Ref.world1
    = (Normal (pr, e), w')
    /\ json pr = JObject [ ("result", JString "0x1") ]
    /\ response_body e = JObject [ ("result", JString "0x1") ]
    /\ outputText pr = JSON_stringify2 (JObject [ ("result", JString "0x1") ]).
Proof.
  apply (structured_response_logged_as_json Ref.node Ref.closure0
           (ChunkStr (JSON_stringify (JObject [ ("result", JString "0x1") ])))
           Ref.world1 (JObject [ ("result", JString "0x1") ])).
  - reflexivity.
  - vm_compute. reflexivity.
  - left. by eexists.
Defined.

(** ** Further properties of the error hook *)

Lemma assoc_set_header (k : string) (v : HeaderValue) (hs : Headers) :
  assoc k (set_header k v hs) = Some v.
Proof.
  induction hs as [| [k' v'] hs IH]; cbn.
  - by rewrite String.eqb_refl.
  - destruct (String.eqb k k') eqn:E; cbn; rewrite ?String.eqb_refl, ?E; done.
Qed.

Lemma after_writes_headersSent (cs : list Chunk) (w : World) :
  cs <> [] \/ headersSent (res w) = true ->
  headersSent (res (after_writes cs w)) = true.
Proof.
  unfold after_writes. revert w.
  induction cs as [| c cs IH]; intros w H.
  - by destruct H.
  - cbn [fold_left]. apply IH. by right.
Qed.

(** X7. The error body echoes the request's id whenever the body is an
    object whose [id] is truthy (a non-zero number, a non-empty string, an
    object, an array).  Its id is [null] when there is no body, when the
    body is [null] or an array (a batch), and when the object has no [id]. *)
Theorem error_body_echoes_truthy_id (rq : Request) :
  (forall props v,
      body rq = Some (JObject props) -> assoc "id" props = Some v -> truthy v = true ->
      JSON_stringify (error_body rq) = proxy_error_text (JSON_stringify v))
  /\ (forall props,
        body rq = Some (JObject props) -> assoc "id" props = None ->
        JSON_stringify (error_body rq) = proxy_error_text "null")
  /\ (body rq = None \/ body rq = Some JNull \/ (exists xs, body rq = Some (JArray xs)) ->
      JSON_stringify (error_body rq) = proxy_error_text "null").
Proof.
  rewrite JSON_stringify_error_body. repeat split.
  - intros props v Hb Hid Ht. rewrite Hb. cbn [opt_prop get_prop].
    rewrite Hid. unfold js_or. by rewrite Ht.
  - intros props Hb Hid. rewrite Hb. cbn [opt_prop get_prop]. by rewrite Hid.
  - intros [-> | [-> | (xs & ->)]]; reflexivity.
Qed.

(** X8. Once a chunk has been written the headers are sent, and a transport
    failure reported afterwards emits nothing: the hook prints the error and
    leaves the response, the files and the buffer as they were, so the
    response is neither ended nor logged by it. *)
Theorem onError_silent_after_write (rt : Runtime) (err : JSError) (cl : Closure)
    (c : Chunk) (cs : list Chunk) (w : World) :
  exists w1 w2,
    res_writes (c :: cs) w = (Normal tt, w1)
    /\ onError rt err cl w1 = (Normal tt, w2)
    /\ res w2 = res w1
    /\ files w2 = files w
    /\ chunks w2 = chunks w1
    /\ console w2
       = console w ++ [ {| stream := StdErr; message := "Proxy error:"; cause := Some err |} ].
Proof.
  exists (after_writes (c :: cs) w), (warned "Proxy error:" err (after_writes (c :: cs) w)).
  split; [ apply res_writes_run | ].
  split.
  - apply onError_headers_sent. apply after_writes_headersSent. by left.
  - destruct (after_writes_spec (c :: cs) w) as (_ & _ & _ & _ & Hc & Hf & _).
    unfold warned. cbn [res files chunks console set_console].
    by rewrite Hc, Hf.
Qed.

(** X9. A transport failure before any header was sent, with the log
    directory in place: the client gets status 500, the header
    [content-type: application/json] and the error body in one [end]; and
    because that [end] is the patched one, the failure is logged like any
    response, in one file whose entry records the status 500 and the
    [content-type] just set. *)
Theorem onError_response_is_logged (rt : Runtime) (err : JSError) (cl : Closure)
    (w : World) :
  headersSent (res w) = false ->
  log_dir_present w = true ->
  exists w' e name,
    onError rt err cl w = (Normal tt, w')
    /\ headersSent (res w') = true
    /\ statusCode (res w') = 500%Z
    /\ assoc "content-type" (resHeaders (res w')) = Some (HStr "application/json")
    /\ wire (res w')
       = wire (res w) ++ [ SEnd (ChunkStr (JSON_stringify (error_body (req cl)))) ]
    /\ response_statusCode e = 500%Z
    /\ assoc "content-type" (response_headers e) = Some (HStr "application/json")
    /\ files w' = <[ name := JSON_stringify2 (logEntry_json e) ]> (files w).
Proof.
  intros Hs Hd. unfold onError.
  rewrite run_bind. unfold console_error at 1, modify at 1.
  rewrite run_bind. unfold gets at 1.
  change (headersSent (res (set_console _ w))) with (headersSent (res w)).
  rewrite Hs. cbn [negb].
  rewrite run_bind. unfold writeHead at 1, modify at 1.
  rewrite res_end_ok by exact Hd.
  match goal with
  | |- context [ ended_world rt cl ?c ?w2 ] =>
      destruct (ended_world_spec rt cl c w2) as (Hr & _ & _ & Hf);
      exists (ended_world rt cl c w2), (logEntry_at rt cl c w2), (logFilename_at rt w2)
  end.
  split; [ reflexivity | ]. rewrite Hr, Hf.
  cbn [sent set_res set_console res headersSent statusCode resHeaders wire files
       logEntry_at response_statusCode response_headers].
  change (toLowerCase "Content-Type") with "content-type".
  rewrite assoc_set_header. repeat split.
Qed.

(** X9 at the sample request. *)
Lemma onError_response_is_logged_witness :
  exists w' e name,
    onError Ref.node (NetError "ECONNREFUSED") Ref.closure0 Ref.world1 = (Normal tt, w')
    /\ headersSent (res w') = true
    /\ statusCode (res w') = 500%Z
    /\ assoc "content-type" (resHeaders (res w')) = Some (HStr "application/json")
    /\ wire (res w')
       = wire (res Ref.world1)
         ++ [ SEnd (ChunkStr (JSON_stringify (error_body (req Ref.closure0)))) ]
    /\ response_statusCode e = 500%Z
    /\ assoc "content-type" (response_headers e) = Some (HStr "application/json")
    /\ files w' = <[ name := JSON_stringify2 (logEntry_json e) ]> (files Ref.world1).
Proof.
  exact (onError_response_is_logged Ref.node (NetError "ECONNREFUSED") Ref.closure0
           Ref.world1 eq_refl eq_refl).
Defined.

(** X10. The same failure with the log directory missing: the hook has
    already set the status 500 and sent the headers when the patched [end]
    throws; the error of [writeFileSync] leaves the hook, no body reaches
    the wire and no file is written. *)
Theorem onError_throws_without_log_dir (rt : Runtime) (err : JSError) (cl : Closure)
    (w : World) :
  headersSent (res w) = false ->
  log_dir_present w = false ->
  exists file w',
    onError rt err cl w = (Throw (ENOENT file), w')
    /\ headersSent (res w') = true
    /\ statusCode (res w') = 500%Z
    /\ wire (res w') = wire (res w)
    /\ files w' = files w.
Proof.
  intros Hs Hd. unfold onError.
  rewrite run_bind. unfold console_error at 1, modify at 1.
  rewrite run_bind. unfold gets at 1.
  change (headersSent (res (set_console _ w))) with (headersSent (res w)).
  rewrite Hs. cbn [negb].
  rewrite run_bind. unfold writeHead at 1, modify at 1.
  rewrite res_end_fail by exact Hd.
  eexists _, _. split; [ reflexivity | ].
  match goal with
  | |- context [ failed_world rt ?c ?w2 ] =>
      destruct (failed_world_spec rt c w2) as (Hr & _ & Hf & _)
  end.
  rewrite Hr, Hf. repeat split.
Qed.

(** X10 at the sample request without a log directory. *)
Lemma onError_throws_without_log_dir_witness :
  exists file w',
    onError Ref.node (NetError "ECONNREFUSED") Ref.closure0 Ref.world_nodir
    = (Throw (ENOENT file), w')
    /\ headersSent (res w') = true
    /\ statusCode (res w') = 500%Z
    /\ wire (res w') = wire (res Ref.world_nodir)
    /\ files w' = files Ref.world_nodir.
Proof.
  exact (onError_throws_without_log_dir Ref.node (NetError "ECONNREFUSED")
           Ref.closure0 Ref.world_nodir eq_refl eq_refl).
Defined.

(** ** The two durations of a request *)

(** X11. The duration printed on the console is computed from a clock
    reading of its own, taken after the log file was written; with a clock
    that never steps back it is never below the duration stored in the
    file. *)
Theorem console_duration_not_below_logged (rt : Runtime) (cl : Closure)
    (chunk : Chunk) (w : World) :
  log_dir_present w = true ->
  (forall n, (clock rt n <= clock rt (S n))%Z) ->
  exists w' d_file d_console,
    res_end rt cl chunk w = (Normal tt, w')
    /\ files w' !! logFilename_at rt w
       = Some (JSON_stringify2 (logEntry_json (logEntry_at rt cl chunk w)))
    /\ timestamp_duration (logEntry_at rt cl chunk w) = pretty d_file +:+ "ms"
    /\ last (console w')
       = Some {| stream := StdOut;
                 message :=
                   console_block rt cl (statusCode (res w))
                     (outputText (processed_at rt chunk w)) d_console
                     (logFilename_at rt w);
                 cause := None |}
    /\ (d_file <= d_console)%Z.
Proof.
  intros Hd Hclock.
  exists (ended_world rt cl chunk w),
         (clock rt (S (dates_read w)) - requestStartTime cl)%Z,
         (clock rt (S (S (S (dates_read w)))) - requestStartTime cl)%Z.
  destruct (ended_world_spec rt cl chunk w) as (_ & _ & Hc & Hf).
  split; [ by apply res_end_ok | ]. rewrite Hf, Hc.
  split; [ apply lookup_insert_eq | ]. split; [ reflexivity | ]. split.
  - rewrite app_assoc. apply last_snoc.
  - pose proof (clock_monotone rt (S (dates_read w)) (S (S (S (dates_read w)))) Hclock).
    lia.
Qed.

(** X11 under the clock that advances 5 ms per reading. *)
Lemma console_duration_witness :
  exists w' d_file d_console,
    res_end Ref.node Ref.closure0 (ChunkStr "ok") Ref.world1 = (Normal tt, w')
    /\ files w' !! logFilename_at Ref.node Ref.world1
       = Some (JSON_stringify2
                 (logEntry_json (logEntry_at Ref.node Ref.closure0 (ChunkStr "ok")
                                   Ref.world1)))
    /\ timestamp_duration (logEntry_at Ref.node Ref.closure0 (ChunkStr "ok") Ref.world1)
       = pretty d_file +:+ "ms"
    /\ last (console w')
       = Some {| stream := StdOut;
                 message :=
                   console_block Ref.node Ref.closure0 (statusCode (res Ref.world1))
                     (outputText (processed_at Ref.node (ChunkStr "ok") Ref.world1))
                     d_console (logFilename_at Ref.node Ref.world1);
                 cause := None |}
    /\ (d_file <= d_console)%Z.
Proof.
  apply (console_duration_not_below_logged Ref.node Ref.closure0 (ChunkStr "ok")
           Ref.world1).
  - reflexivity.
  - intros n. cbn. unfold Ref.ticking. lia.
Defined.

(** ** Requests in sequence *)






(** ** Start-up *)

(** X12. The start-up exits with status 1, after one line on stderr and
    before it touches the log directory or listens, exactly when
    [TARGET_URL] is unset or set to the empty string. *)
Theorem startup_exits_iff_no_target (host : Host) (log_dir : string)
    (env : gmap string string) (dirs : gset string) :
  (env !! "TARGET_URL" = None \/ env !! "TARGET_URL" = Some "" ->
   startup host log_dir env dirs
   = Exited 1 [ {| stream := StdErr;
                   message := "Please set TARGET_URL in your environment variables";
                   cause := None |} ])
  /\ (forall code out,
        startup host log_dir env dirs = Exited code out ->
        (env !! "TARGET_URL" = None \/ env !! "TARGET_URL" = Some "") /\ code = 1%Z).
Proof.
  unfold startup. split.
  - intros [-> | ->]; reflexivity.
  - intros code out.
    destruct (env !! "TARGET_URL") as [url |] eqn:E.
    + destruct (String.eqb url "") eqn:Eu.
      * apply String.eqb_eq in Eu as ->. intros [= <- _]. by split; [ right | ].
      * destruct (if bool_decide (log_dir ∈ dirs) then inr dirs
                  else mkdirSync host log_dir dirs) as [e | dirs'];
          [ discriminate | ].
        destruct (listen_error host (PORT_of env)); discriminate.
    + intros [= <- _]. by split; [ left | ].
Qed.





(** ** Requests that do not reach the logging middleware *)

(** C6 at its failing inputs.  When [express.json()] rejects the body, the
    request is answered by Express's error handler and the cycle completes:
    the status and the page are sent and the response is ended.  The
    logging middleware, mounted after [express.json()], never runs: no file
    is written and no block is printed. *)
Theorem rejected_body_is_not_logged (rt : Runtime) (express_json : Incoming -> BodyParse)
    (inc : Incoming) (cs : list Chunk) (last : Chunk) (r : Rejection) (w : World) :
  express_json inc = BodyRejected r ->
  exists w',
    app_handle rt express_json inc cs last w = (Normal tt, w')
    /\ statusCode (res w') = rej_status r
    /\ wire (res w') = wire (res w) ++ [ SEnd (ChunkStr (rej_page r)) ]
    /\ files w' = files w
    /\ blocks (console w') = blocks (console w).
Proof.
  intros Hr. unfold app_handle. rewrite Hr. unfold send_error.
  rewrite run_bind. unfold modify at 1.
  rewrite run_bind. unfold modify at 1.
  unfold originalEnd, modify.
  eexists. split; [ reflexivity | ].
  world_simpl. cbn [statusCode wire].
  repeat split.
  unfold blocks. rewrite List.filter_app. cbn. by rewrite app_nil_r.
Qed.

(** C6's failing input: a POST whose JSON body is malformed, answered 400. *)
Lemma rejected_body_witness :
  exists w',
    app_handle Ref.node Ref.express_json Ref.broken [ ChunkStr "ab" ] (ChunkStr "cd") Ref.world0
    = (Normal tt, w')
    /\ statusCode (res w') = 400%Z
    /\ wire (res w')
       = wire (res Ref.world0) ++ [ SEnd (ChunkStr "<pre>Bad Request</pre>") ]
    /\ files w' = files Ref.world0
    /\ blocks (console w') = blocks (console Ref.world0).
Proof.
  exact (rejected_body_is_not_logged Ref.node Ref.express_json Ref.broken
           [ ChunkStr "ab" ] (ChunkStr "cd") _ Ref.world0 eq_refl).
Defined.
